(** * Employee productivity analysis: the calculator and the aggregator

    A shallow embedding of [calculate_productivity] and
    [generate_summary_stats] of [app.py], with the properties of the
    specification that concern them, and of the functions around them:
    [generate_sample_data], and the handlers [analyze_productivity] and
    [export_excel] up to the values they hand to Flask.  The rendering of
    the PDF report and the serialization of responses are not modelled.

    Conventions of the embedding.
    - A pandas [DataFrame] is a record of typed columns, each of them
      optional: item access [df['X']] on an absent column raises
      [KeyError].  Every cell of a column holds a value: a blank cell of
      an upload, which pandas reads as a missing value, is outside the
      tables modelled.
    - Integer columns have the dtype int64: their entries are integers of
      the 64-bit range, and the arithmetic on them wraps around ([int64]).
      Object columns are lists of strings.
    - Float columns are lists of exact rationals [Q], and [round(2)] is
      rounding to the nearest hundredth, ties to even, on the exact
      rational.  The code computes in binary floating point, so that its
      numbers differ from the exact ones by rounding errors, and by a
      hundredth where such an error moves a value across the midpoint of
      two hundredths: 87 hours of 160 expected are 54.375 percent, which
      rounds to 54.38, and the code has 54.37, the quotient in float64
      being a little below.  What is stated of the value of a percentage,
      of displayed hours or of an average is therefore stated up to a
      [margin]: half a hundredth for the rounding to two decimals and a
      ten-thousandth for the floating point, which covers it for hours and
      percentages up to a million in size and tables of up to a hundred
      thousand rows.  A value that the code has rounded to two decimals is
      the float64 nearest to a hundredth, and stands for that hundredth.
      Where a statement is about the value that float64 itself
      computes, every operation is rounded by [fl], of which only the
      monotonicity and the exactness on the numbers of float64 are used
      ([Float64]).
    - Frames that are assigned to are objects in a store, and the variable
      that names one holds its location: item assignment [df['X'] = ...]
      updates the object in place and [df.copy()] allocates a new one.
      Boolean indexing [df[mask]] builds a new frame that is only read; it
      is handled as a value.
    - The [random] module is a generator of any state type with the two
      primitives behind [choice], [randint], [random] and [uniform], and
      the sample generator is a computation that threads that state: what
      is proved of it holds for every outcome of the draws.
    - A handler is a function from what it reads of the request to the
      body and the status of its response.  The readers of uploads,
      [pd.read_csv] and [pd.read_excel], are parameters: they give a frame
      or the text of an exception.  The rows that a client posts to
      [export_excel] are rows of an analysis. *)

From Stdlib Require Import ZArith QArith DecimalString DecimalNat.
From stdpp Require Import gmap strings list.

Local Open Scope Z_scope.

(** ** Constants *)

Definition FULLTIME_STANDARD_HOURS : Z := 200.
Definition PARTTIME_STANDARD_HOURS : Z := 100.
Definition HOURS_PER_LEAVE_DAY : Z := 8.
Definition PRODUCTIVITY_THRESHOLD : Z := 90.

(** ** Numbers *)

(** Nearest integer of a rational, ties to even. *)
Definition round_half_even (q : Q) : Z :=
  let n := Qnum q in
  let d := Z.pos (Qden q) in
  let f := n / d in
  match 2 * (n mod d) ?= d with
  | Lt => f
  | Gt => f + 1
  | Eq => if Z.even f then f else f + 1
  end.

(** [x.round(2)] *)
Definition round2 (q : Q) : Q := round_half_even (q * 100) # 100.

Definition Qsum (xs : list Q) : Q := foldr Qplus 0%Q xs.

(** Arithmetic mean of a non-empty column. *)
Definition Qmean (xs : list Q) : Q :=
  (Qsum xs / inject_Z (Z.of_nat (length xs)))%Q.

(** The dtype int64: the range of its values, and the value that an
    arithmetic result wraps around to. *)
Definition int64_min : Z := -9223372036854775808.
Definition int64_max : Z := 9223372036854775807.

Definition in_int64 (z : Z) : Prop := int64_min <= z <= int64_max.

Definition int64 (z : Z) : Z :=
  (z - int64_min) mod 18446744073709551616 + int64_min.

(** The leave days, from [- 2^59] up to [2^60], whose deduction of 8 hours
    a day and the hours expected after it stay in the int64 range. *)
Definition no_overflow (leave_days : Z) : Prop :=
  -576460752303423488 <= leave_days < 1152921504606846976.








(** The scalar that [Series.mean()] returns: a [numpy.float64] on a
    non-empty column, and the Python float [nan] on an empty one. *)
Inductive scalar : Type :=
  | np_float64 (q : Q)
  | py_nan.

Definition Series_mean (xs : list Q) : scalar :=
  match xs with
  | [] => py_nan
  | _ :: _ => np_float64 (Qmean xs)
  end.

(** ** Exceptions *)

(** [ReferenceError] stands for a location that holds no object; a live
    Python variable never is one. *)
Inductive exn : Type :=
  | KeyError (key : string)
  | AttributeError (msg : string)
  | ReferenceError.

Inductive result (A : Type) : Type :=
  | Ok (a : A)
  | Raise (e : exn).
Arguments Ok {A} a.
Arguments Raise {A} e.

#[global] Instance result_ret : MRet result := @Ok.
#[global] Instance result_bind : MBind result := fun A B f m =>
  match m with
  | Ok a => f a
  | Raise e => Raise e
  end.

(** [v.round(2)] on the scalar of a mean: a method of [numpy.float64], which
    the Python float does not have. *)
Definition scalar_round2 (v : scalar) : result Q :=
  match v with
  | np_float64 q => Ok (round2 q)
  | py_nan => Raise (AttributeError "'float' object has no attribute 'round'")
  end.

(** ** Records *)

Record EmployeeRecord : Type := mkEmployee {
  employee_id : string;
  name : string;
  department : string;
  employment_type : string;
  actual_hours : Q;
  leave_days : Z
}.

(** The row of the enriched table: the six input columns ([actual_hours]
    now holds the display-rounded value) and the five derived ones. *)
Record EnrichedRecord : Type := mkEnriched {
  record : EmployeeRecord;
  standard_hours : Z;
  leave_hours_deduction : Z;
  expected_hours : Z;
  productivity_percentage : Q;
  productivity_status : string
}.

(** ** Data frames *)

Record DataFrame : Type := mkDataFrame {
  index : list nat;
  Employee_ID : option (list string);
  Name : option (list string);
  Department : option (list string);
  Employment_Type : option (list string);
  Actual_Hours : option (list Q);
  Leave_Days : option (list Z);
  Standard_Hours : option (list Z);
  Leave_Hours_Deduction : option (list Z);
  Expected_Hours : option (list Z);
  Productivity_Percentage : option (list Q);
  Productivity_Status : option (list string)
}.

(** [df[key]] *)
Definition getitem {A} (col : DataFrame -> option A) (key : string)
    (df : DataFrame) : result A :=
  match col df with
  | Some c => Ok c
  | None => Raise (KeyError key)
  end.

(** [len(df)] *)
Definition len (df : DataFrame) : nat := length (index df).

(** Item assignment, one function per assigned column. *)
Definition set_Standard_Hours (c : list Z) (df : DataFrame) : DataFrame :=
  mkDataFrame (index df) (Employee_ID df) (Name df) (Department df)
    (Employment_Type df) (Actual_Hours df) (Leave_Days df)
    (Some c) (Leave_Hours_Deduction df) (Expected_Hours df)
    (Productivity_Percentage df) (Productivity_Status df).

Definition set_Leave_Hours_Deduction (c : list Z) (df : DataFrame) : DataFrame :=
  mkDataFrame (index df) (Employee_ID df) (Name df) (Department df)
    (Employment_Type df) (Actual_Hours df) (Leave_Days df)
    (Standard_Hours df) (Some c) (Expected_Hours df)
    (Productivity_Percentage df) (Productivity_Status df).

Definition set_Expected_Hours (c : list Z) (df : DataFrame) : DataFrame :=
  mkDataFrame (index df) (Employee_ID df) (Name df) (Department df)
    (Employment_Type df) (Actual_Hours df) (Leave_Days df)
    (Standard_Hours df) (Leave_Hours_Deduction df) (Some c)
    (Productivity_Percentage df) (Productivity_Status df).

Definition set_Productivity_Percentage (c : list Q) (df : DataFrame) : DataFrame :=
  mkDataFrame (index df) (Employee_ID df) (Name df) (Department df)
    (Employment_Type df) (Actual_Hours df) (Leave_Days df)
    (Standard_Hours df) (Leave_Hours_Deduction df) (Expected_Hours df)
    (Some c) (Productivity_Status df).

Definition set_Productivity_Status (c : list string) (df : DataFrame) : DataFrame :=
  mkDataFrame (index df) (Employee_ID df) (Name df) (Department df)
    (Employment_Type df) (Actual_Hours df) (Leave_Days df)
    (Standard_Hours df) (Leave_Hours_Deduction df) (Expected_Hours df)
    (Productivity_Percentage df) (Some c).

Definition set_Actual_Hours (c : list Q) (df : DataFrame) : DataFrame :=
  mkDataFrame (index df) (Employee_ID df) (Name df) (Department df)
    (Employment_Type df) (Some c) (Leave_Days df)
    (Standard_Hours df) (Leave_Hours_Deduction df) (Expected_Hours df)
    (Productivity_Percentage df) (Productivity_Status df).

(** Boolean indexing of a column: the entries whose mask bit is set. *)
Fixpoint boolean_index {A} (mask : list bool) (xs : list A) : list A :=
  match mask, xs with
  | b :: mask', x :: xs' =>
      if b then x :: boolean_index mask' xs' else boolean_index mask' xs'
  | _, _ => []
  end.

(** [df[mask]]: a new frame with the selected rows of every column. *)
Definition df_mask (mask : list bool) (df : DataFrame) : DataFrame :=
  mkDataFrame (boolean_index mask (index df))
    (boolean_index mask <$> Employee_ID df)
    (boolean_index mask <$> Name df)
    (boolean_index mask <$> Department df)
    (boolean_index mask <$> Employment_Type df)
    (boolean_index mask <$> Actual_Hours df)
    (boolean_index mask <$> Leave_Days df)
    (boolean_index mask <$> Standard_Hours df)
    (boolean_index mask <$> Leave_Hours_Deduction df)
    (boolean_index mask <$> Expected_Hours df)
    (boolean_index mask <$> Productivity_Percentage df)
    (boolean_index mask <$> Productivity_Status df).

(** [series == value] on an object column. *)
Definition series_eq (value : string) (s : list string) : list bool :=
  String.eqb value <$> s.

(** ** The store of frame objects *)

Definition loc : Type := nat.
Definition store : Type := list DataFrame.

(** A computation on the store; the store survives an exception. *)
Definition M (A : Type) : Type := store -> result A * store.

#[global] Instance M_ret : MRet M := fun A a s => (Ok a, s).
#[global] Instance M_bind : MBind M := fun A B f m s =>
  match m s with
  | (Ok a, s') => f a s'
  | (Raise e, s') => (Raise e, s')
  end.

(** [df.copy()]: a new object with the same columns. *)
Definition df_copy (l : loc) : M loc := fun s =>
  match s !! l with
  | Some df => (Ok (length s), s ++ [df])
  | None => (Raise ReferenceError, s)
  end.

(** One assignment statement [df[..] = e], where [e] reads columns of the
    same object: the right-hand side is evaluated first and the object is
    updated only when it raised nothing. *)
Definition assign (l : loc) (stmt : DataFrame -> result DataFrame) : M unit :=
  fun s =>
    match s !! l with
    | Some df =>
        match stmt df with
        | Ok df' => (Ok tt, <[l := df']> s)
        | Raise e => (Raise e, s)
        end
    | None => (Raise ReferenceError, s)
    end.

(** Reading the object a variable refers to. *)
Definition deref (l : loc) : M DataFrame := fun s =>
  match s !! l with
  | Some df => (Ok df, s)
  | None => (Raise ReferenceError, s)
  end.

Definition lift {A} (r : result A) : M A := fun s => (r, s).

(** ** [calculate_productivity] *)

(** [lambda x: FULLTIME_STANDARD_HOURS if x == 'Full-Time' else PARTTIME_STANDARD_HOURS] *)
Definition standard_hours_of (x : string) : Z :=
  if String.eqb x "Full-Time" then FULLTIME_STANDARD_HOURS
  else PARTTIME_STANDARD_HOURS.

(** [lambda x: 'Productive' if x >= PRODUCTIVITY_THRESHOLD else 'Not Productive'] *)
Definition status_of (x : Q) : string :=
  if Qle_bool (inject_Z PRODUCTIVITY_THRESHOLD) x then "Productive"
  else "Not Productive".

(** Line 62: [df['Standard_Hours'] = df['Employment_Type'].apply(...)] *)
Definition stmt_standard_hours (df : DataFrame) : result DataFrame :=
  et ← getitem Employment_Type "Employment_Type" df;
  mret (set_Standard_Hours (standard_hours_of <$> et) df).

(** Line 67: [df['Leave_Hours_Deduction'] = df['Leave_Days'] * HOURS_PER_LEAVE_DAY] *)
Definition stmt_leave_hours_deduction (df : DataFrame) : result DataFrame :=
  ld ← getitem Leave_Days "Leave_Days" df;
  mret (set_Leave_Hours_Deduction
          ((fun d => int64 (d * HOURS_PER_LEAVE_DAY)) <$> ld) df).

(** Line 68: [df['Expected_Hours'] = df['Standard_Hours'] - df['Leave_Hours_Deduction']] *)
Definition stmt_expected_hours (df : DataFrame) : result DataFrame :=
  sh ← getitem Standard_Hours "Standard_Hours" df;
  lhd ← getitem Leave_Hours_Deduction "Leave_Hours_Deduction" df;
  mret (set_Expected_Hours (zip_with (fun a b => int64 (a - b)) sh lhd) df).

(** Line 71: [df['Expected_Hours'] = df['Expected_Hours'].clip(lower=1)] *)
Definition stmt_clip (df : DataFrame) : result DataFrame :=
  eh ← getitem Expected_Hours "Expected_Hours" df;
  mret (set_Expected_Hours (Z.max 1 <$> eh) df).

(** Line 74: [df['Productivity_Percentage'] =
    (df['Actual_Hours'] / df['Expected_Hours'] * 100).round(2)] *)
Definition stmt_productivity_percentage (df : DataFrame) : result DataFrame :=
  ah ← getitem Actual_Hours "Actual_Hours" df;
  eh ← getitem Expected_Hours "Expected_Hours" df;
  mret (set_Productivity_Percentage
          (round2 <$> zip_with (fun a e => (a / inject_Z e * 100)%Q) ah eh) df).

(** Line 77: [df['Productivity_Status'] = df['Productivity_Percentage'].apply(...)] *)
Definition stmt_productivity_status (df : DataFrame) : result DataFrame :=
  pp ← getitem Productivity_Percentage "Productivity_Percentage" df;
  mret (set_Productivity_Status (status_of <$> pp) df).

(** Line 82: [df['Actual_Hours'] = df['Actual_Hours'].round(2)] *)
Definition stmt_round_actual_hours (df : DataFrame) : result DataFrame :=
  ah ← getitem Actual_Hours "Actual_Hours" df;
  mret (set_Actual_Hours (round2 <$> ah) df).

Definition calculate_productivity (df : loc) : M loc :=
  df ← df_copy df;
  assign df stmt_standard_hours;;
  assign df stmt_leave_hours_deduction;;
  assign df stmt_expected_hours;;
  assign df stmt_clip;;
  assign df stmt_productivity_percentage;;
  assign df stmt_productivity_status;;
  assign df stmt_round_actual_hours;;
  mret df.

(** ** [generate_summary_stats] *)

#[global] Instance result_fmap : FMap result := fun A B f m =>
  match m with
  | Ok a => Ok (f a)
  | Raise e => Raise e
  end.

(** The sub-summary of an employment-type segment. *)
Module Segment.
Record t : Type := mk {
  count : nat;
  productive : nat;
  not_productive : nat;
  average_productivity : Q;
  average_hours : Q
}.
End Segment.

(** One entry of [department_stats]: the aggregated columns of a group. *)
Module Dept.
Record t : Type := mk {
  Productivity_Percentage : Q;
  Employee_ID : nat
}.
End Dept.

(** The summary dictionary; the empty dictionary [{}] of a segment is
    [None]. *)
Record SummaryStats : Type := mkSummary {
  total_employees : nat;
  productive_count : nat;
  not_productive_count : nat;
  average_productivity : Q;
  fulltime_stats : option Segment.t;
  parttime_stats : option Segment.t;
  department_stats : gmap string Dept.t
}.

(** The dictionary built for a non-empty segment (lines 100-106 and
    111-117).  Boolean indexing yields new frames, which are only read. *)
Definition segment_stats (seg : DataFrame) : result Segment.t :=
  ps ← getitem Productivity_Status "Productivity_Status" seg;
  let productive := len (df_mask (series_eq "Productive" ps) seg) in
  ps ← getitem Productivity_Status "Productivity_Status" seg;
  let not_productive := len (df_mask (series_eq "Not Productive" ps) seg) in
  pp ← getitem Productivity_Percentage "Productivity_Percentage" seg;
  average_productivity ← scalar_round2 (Series_mean pp);
  ah ← getitem Actual_Hours "Actual_Hours" seg;
  average_hours ← scalar_round2 (Series_mean ah);
  mret (Segment.mk (len seg) productive not_productive
          average_productivity average_hours).

(** [groupby(key)]: the rows of every key, in their original order. *)
Definition groupby {A} (keys : list string) (rows : list A) : gmap string (list A) :=
  foldr (fun kv g => <[kv.1 := kv.2 :: default [] (g !! kv.1)]> g) ∅
    (zip keys rows).

(** [.agg({'Productivity_Percentage': 'mean', 'Employee_ID': 'count'}).round(2)]
    on one group. *)
Definition agg (group : list (Q * string)) : Dept.t :=
  Dept.mk (round2 (Qmean group.*1)) (length group.*2).

(** Lines 120-123. *)
Definition department_agg (df : DataFrame) : result (gmap string Dept.t) :=
  keys ← getitem Department "Department" df;
  pp ← getitem Productivity_Percentage "Productivity_Percentage" df;
  ids ← getitem Employee_ID "Employee_ID" df;
  mret (agg <$> groupby keys (zip pp ids)).

(** The body of [generate_summary_stats] on the frame its argument refers
    to. *)
Definition summary_of (df : DataFrame) : result SummaryStats :=
  ps ← getitem Productivity_Status "Productivity_Status" df;
  let productive_count := len (df_mask (series_eq "Productive" ps) df) in
  ps ← getitem Productivity_Status "Productivity_Status" df;
  let not_productive_count := len (df_mask (series_eq "Not Productive" ps) df) in
  pp ← getitem Productivity_Percentage "Productivity_Percentage" df;
  average_productivity ← scalar_round2 (Series_mean pp);
  et ← getitem Employment_Type "Employment_Type" df;
  let ft_df := df_mask (series_eq "Full-Time" et) df in
  fulltime_stats ←
    (if bool_decide (0 < len ft_df)%nat then Some <$> segment_stats ft_df
     else mret None);
  et ← getitem Employment_Type "Employment_Type" df;
  let pt_df := df_mask (series_eq "Part-Time" et) df in
  parttime_stats ←
    (if bool_decide (0 < len pt_df)%nat then Some <$> segment_stats pt_df
     else mret None);
  dept_stats ← department_agg df;
  mret (mkSummary (len df) productive_count not_productive_count
          average_productivity fulltime_stats parttime_stats dept_stats).

Definition generate_summary_stats (df : loc) : M SummaryStats :=
  d ← deref df;
  lift (summary_of d).

(** ** Tables of records *)

(** The frame of a parsed roster: the six input columns, one row per
    record, under the default index. *)
Definition DataFrame_of (records : list EmployeeRecord) : DataFrame :=
  mkDataFrame (seq 0 (length records))
    (Some (employee_id <$> records)) (Some (name <$> records))
    (Some (department <$> records)) (Some (employment_type <$> records))
    (Some (actual_hours <$> records)) (Some (leave_days <$> records))
    None None None None None.

(** The frame of a sequence of enriched records, as [pd.DataFrame(data['data'])]
    rebuilds it. *)
Definition DataFrame_of_enriched (records : list EnrichedRecord) : DataFrame :=
  mkDataFrame (seq 0 (length records))
    (Some ((employee_id ∘ record) <$> records))
    (Some ((name ∘ record) <$> records))
    (Some ((department ∘ record) <$> records))
    (Some ((employment_type ∘ record) <$> records))
    (Some ((actual_hours ∘ record) <$> records))
    (Some ((leave_days ∘ record) <$> records))
    (Some (standard_hours <$> records))
    (Some (leave_hours_deduction <$> records))
    (Some (expected_hours <$> records))
    (Some (productivity_percentage <$> records))
    (Some (productivity_status <$> records)).

(** Row-wise application of a column of functions. *)
Definition zap {A B} (fs : list (A -> B)) (xs : list A) : list B :=
  zip_with (fun f x => f x) fs xs.

(** [df.to_dict('records')] on an enriched frame. *)
Definition to_dict_records (df : DataFrame) : result (list EnrichedRecord) :=
  c1 ← getitem Employee_ID "Employee_ID" df;
  c2 ← getitem Name "Name" df;
  c3 ← getitem Department "Department" df;
  c4 ← getitem Employment_Type "Employment_Type" df;
  c5 ← getitem Actual_Hours "Actual_Hours" df;
  c6 ← getitem Leave_Days "Leave_Days" df;
  c7 ← getitem Standard_Hours "Standard_Hours" df;
  c8 ← getitem Leave_Hours_Deduction "Leave_Hours_Deduction" df;
  c9 ← getitem Expected_Hours "Expected_Hours" df;
  c10 ← getitem Productivity_Percentage "Productivity_Percentage" df;
  c11 ← getitem Productivity_Status "Productivity_Status" df;
  mret (zap (zap (zap (zap (zap (zap (zap (zap (zap (zap
    ((fun a b c d e f g h i j k =>
        mkEnriched (mkEmployee a b c d e f) g h i j k) <$> c1)
    c2) c3) c4) c5) c6) c7) c8) c9) c10) c11).

(** The calculator on a sequence of records: the table is the only object
    of the store, and the rows of the frame returned are read back. *)
Definition calculate (records : list EmployeeRecord) : result (list EnrichedRecord) :=
  let '(r, s) := calculate_productivity 0%nat [DataFrame_of records] in
  l ← r;
  match s !! l with
  | Some df => to_dict_records df
  | None => Raise ReferenceError
  end.

(** The aggregator on a sequence of enriched records. *)
Definition summarize (records : list EnrichedRecord) : result SummaryStats :=
  (generate_summary_stats 0%nat [DataFrame_of_enriched records]).1.

(** ** The row-wise reading of the calculator *)

(** The enriched record of one employee record, as the data model of the
    specification derives it: every field from the record's own fields. *)
Definition enrich (r : EmployeeRecord) : EnrichedRecord :=
  let sh := standard_hours_of (employment_type r) in
  let lhd := int64 (leave_days r * HOURS_PER_LEAVE_DAY) in
  let eh := Z.max 1 (int64 (sh - lhd)) in
  let pp := round2 (actual_hours r / inject_Z eh * 100) in
  mkEnriched
    (mkEmployee (employee_id r) (name r) (department r) (employment_type r)
       (round2 (actual_hours r)) (leave_days r))
    sh lhd eh pp (status_of pp).



(** A record for examples: only the fields the calculator reads vary. *)
Definition emp (ty : string) (hours : Q) (leave : Z) : EmployeeRecord :=
  mkEmployee "EMP0001" "Employee 1" "Engineering" ty hours leave.

(** ** The row-wise reading of the aggregator *)

(** The frame [df] carries the rows [es] in the columns the aggregator
    reads. *)
Definition has_rows (df : DataFrame) (es : list EnrichedRecord) : Prop :=
  len df = length es
  /\ Employee_ID df = Some (employee_id ∘ record <$> es)
  /\ Department df = Some (department ∘ record <$> es)
  /\ Employment_Type df = Some (employment_type ∘ record <$> es)
  /\ Actual_Hours df = Some (actual_hours ∘ record <$> es)
  /\ Productivity_Percentage df = Some (productivity_percentage <$> es)
  /\ Productivity_Status df = Some (productivity_status <$> es).

(** The rows with a given status, employment type or department. *)
Definition with_status (v : string) (es : list EnrichedRecord) :=
  List.filter (fun e => String.eqb v (productivity_status e)) es.
Definition with_type (v : string) (es : list EnrichedRecord) :=
  List.filter (fun e => String.eqb v (employment_type (record e))) es.
Definition with_department (v : string) (es : list EnrichedRecord) :=
  List.filter (fun e => String.eqb v (department (record e))) es.

(** The statistics of a subset of the rows. *)
Definition segment_of (seg : list EnrichedRecord) : Segment.t :=
  Segment.mk (length seg)
    (length (with_status "Productive" seg))
    (length (with_status "Not Productive" seg))
    (round2 (Qmean (productivity_percentage <$> seg)))
    (round2 (Qmean (actual_hours ∘ record <$> seg))).

(** The sub-summary of a segment: the empty dictionary when it has no
    member. *)
Definition segment_opt (seg : list EnrichedRecord) : option Segment.t :=
  match seg with
  | [] => None
  | _ :: _ => Some (segment_of seg)
  end.

Definition department_of (seg : list EnrichedRecord) : Dept.t :=
  Dept.mk (round2 (Qmean (productivity_percentage <$> seg))) (length seg).





(** ** Tables handed to the calculator *)



(** ** The [random] module *)

(** The generator behind the functions of the [random] module, of state
    [G]: its two primitives, [Random._randbelow(n)] for [n > 0] and
    [Random.random()], with the ranges they are documented to have. *)
Class RandomSource (G : Type) : Type := {
  randbelow : nat -> G -> nat * G;
  random : G -> Q * G;
  randbelow_lt n g : (0 < n)%nat -> ((randbelow n g).1 < n)%nat;
  random_unit g : (0 <= (random g).1)%Q /\ ((random g).1 < 1)%Q
}.

(** A computation that draws from the generator. *)
Definition Rand (G A : Type) : Type := G -> A * G.

#[global] Instance Rand_ret {G} : MRet (Rand G) := fun A a g => (a, g).
#[global] Instance Rand_bind {G} : MBind (Rand G) := fun A B f m g =>
  let '(a, g') := m g in f a g'.

(** [random.randint(a, b)], for [a <= b]: [a + _randbelow(b - a + 1)]. *)
Definition randint `{RandomSource G} (a b : Z) : Rand G Z := fun g =>
  let '(k, g') := randbelow (Z.to_nat (b - a + 1)) g in (a + Z.of_nat k, g').

(** [random.choice(seq)], for a non-empty [seq]:
    [seq[_randbelow(len(seq))]]. *)
Definition choice `{RandomSource G} (seq : list string) : Rand G string := fun g =>
  let '(k, g') := randbelow (length seq) g in (nth k seq "", g').

(** [random.uniform(a, b)]: [a + (b - a) * random()]. *)
Definition uniform `{RandomSource G} (a b : Q) : Rand G Q := fun g =>
  let '(r, g') := random g in ((a + (b - a) * r)%Q, g').

(** A generator for the examples: it counts its draws. *)
#[global] Instance counter_source : RandomSource nat := {|
  randbelow n g := ((g mod n)%nat, S g);
  random g := (Z.of_nat (g mod 10) # 10, S g);
  randbelow_lt n g Hn := Nat.mod_upper_bound g n (proj2 (Nat.neq_0_lt_0 n) Hn);
  random_unit g :=
    ltac:(pose proof (Nat.mod_upper_bound g 10 ltac:(discriminate));
          unfold Qle, Qlt; cbn [fst Qnum Qden]; lia)
|}.

(** ** [generate_sample_data] *)

(** [int(x)] of a float: truncation towards zero. *)
Definition py_int (x : Q) : Z := Qnum x ÷ Z.pos (Qden x).

(** [str(i)] of a natural number. *)
Definition str (i : nat) : string := NilEmpty.string_of_uint (Nat.to_uint i).

Fixpoint zeros (n : nat) : string :=
  match n with
  | O => ""
  | S n' => "0" +:+ zeros n'
  end.

(** [f'{i:04d}']: the decimal digits, padded with zeros on the left to four
    characters. *)
Definition format_04d (i : nat) : string :=
  zeros (4 - String.length (str i)) +:+ str i.

Definition departments : list string :=
  ["Engineering"; "Sales"; "Marketing"; "HR"; "Finance"; "Operations"; "IT";
   "Customer Service"].

Definition employment_types : list string := ["Full-Time"; "Part-Time"].

(** Lines 35-53: the body of the loop, for the index [i].  The draws are in
    the order of evaluation: the employment type, the leave days, the coin
    of line 41, the hours, and, inside the dictionary, the department and
    the factor of line 51. *)
Definition sample_employee `{RandomSource G} (i : nat) : Rand G EmployeeRecord :=
  emp_type ← choice employment_types;
  let standard_hours :=
    if String.eqb emp_type "Full-Time" then FULLTIME_STANDARD_HOURS
    else PARTTIME_STANDARD_HOURS in
  leave_days ← randint 0 5;
  u ← random;
  actual_hours ←
    (if Qlt_le_dec u 0.7
     then randint (py_int (inject_Z standard_hours * 0.90))
                  (py_int (inject_Z standard_hours * 1.05))
     else randint (py_int (inject_Z standard_hours * 0.60))
                  (py_int (inject_Z standard_hours * 0.89)));
  department ← choice departments;
  w ← uniform 0.8 1.0;
  mret (mkEmployee ("EMP" +:+ format_04d i) ("Employee " +:+ str i)
          department emp_type
          (inject_Z actual_hours
           - inject_Z (leave_days * HOURS_PER_LEAVE_DAY) * w)%Q
          leave_days).

(** [pd.DataFrame(data)] on a list of row dictionaries with the six input
    keys: the columns are the keys of the rows, so the empty list gives a
    frame without columns. *)
Definition DataFrame_of_dicts (data : list EmployeeRecord) : DataFrame :=
  match data with
  | [] => mkDataFrame [] None None None None None None None None None None None
  | _ :: _ => DataFrame_of data
  end.

(** The loop runs over [range(1, num_employees + 1)]. *)
Definition generate_sample_data `{RandomSource G} (num_employees : Z) : Rand G DataFrame :=
  data ← mapM sample_employee (seq 1 (Z.to_nat num_employees));
  mret (DataFrame_of_dicts data).

(** What one generated row looks like, for the index [i]. *)
Definition sampled (i : nat) (r : EmployeeRecord) : Prop :=
  employee_id r = "EMP" +:+ format_04d i
  /\ name r = "Employee " +:+ str i
  /\ department r ∈ departments
  /\ employment_type r ∈ employment_types
  /\ 0 <= leave_days r <= 5
  /\ (inject_Z (standard_hours_of (employment_type r)) * 0.6
      - inject_Z (leave_days r * 8) <= actual_hours r)%Q
  /\ (actual_hours r
      <= inject_Z (standard_hours_of (employment_type r)) * 1.05
         - inject_Z (leave_days r * 8) * 0.8)%Q.

(** ** The request handlers *)

(** [str(e)]: a [KeyError] prints the [repr] of its key. *)
Definition str_exn (e : exn) : string :=
  match e with
  | KeyError key => "'" +:+ key +:+ "'"
  | AttributeError msg => msg
  | ReferenceError => ""
  end.

(** The sheets written to an [ExcelWriter], in order, each with the frame
    that [to_excel] wrote. *)
Definition workbook : Type := list (string * DataFrame).

(** What a handler answers with: the dictionary handed to [jsonify], or the
    workbook handed to [send_file]. *)
Inductive body : Type :=
  | error (msg : string)
  | analysis (summary : SummaryStats)
      (data fulltime_data parttime_data : list EnrichedRecord)
  | spreadsheet (sheets : workbook).

(** A response: the body and the status code. *)
Definition response : Type := body * nat.

(** What [pd.read_csv] or [pd.read_excel] makes of an upload: a frame, or an
    exception, of which the handler uses [str(e)] only. *)
Inductive parsed : Type :=
  | Frame (df : DataFrame)
  | ParseError (msg : string).

(** An uploaded file, with contents of type [C]. *)
Record FileStorage (C : Type) : Type := mkFile {
  filename : string;
  stream : C
}.
Arguments mkFile {C} filename stream.
Arguments filename {C} _.
Arguments stream {C} _.

(** [s.endswith(suffix)] *)
Definition endswith (s suffix : string) : bool :=
  let n := String.length s in
  let m := String.length suffix in
  (m <=? n)%nat && String.eqb (String.substring (n - m) m s) suffix.

(** Line 170. *)
Definition required_columns : list string :=
  ["Employee_ID"; "Name"; "Department"; "Employment_Type"; "Actual_Hours";
   "Leave_Days"].

Definition column_label {A} (key : string) (col : option A) : list string :=
  match col with
  | Some _ => [key]
  | None => []
  end.

(** [df.columns]; the handler tests membership only. *)
Definition columns (df : DataFrame) : list string :=
  column_label "Employee_ID" (Employee_ID df)
  ++ column_label "Name" (Name df)
  ++ column_label "Department" (Department df)
  ++ column_label "Employment_Type" (Employment_Type df)
  ++ column_label "Actual_Hours" (Actual_Hours df)
  ++ column_label "Leave_Days" (Leave_Days df)
  ++ column_label "Standard_Hours" (Standard_Hours df)
  ++ column_label "Leave_Hours_Deduction" (Leave_Hours_Deduction df)
  ++ column_label "Expected_Hours" (Expected_Hours df)
  ++ column_label "Productivity_Percentage" (Productivity_Percentage df)
  ++ column_label "Productivity_Status" (Productivity_Status df).

(** Line 171: [[col for col in required_columns if col not in df.columns]] *)
Definition missing_columns (df : DataFrame) : list string :=
  List.filter (fun col => negb (bool_decide (col ∈ columns df)))
    required_columns.

(** Lines 176-187: the response dictionary of a validated frame. *)
Definition analysis_of (df : loc) : M body :=
  df_processed ← calculate_productivity df;
  summary ← generate_summary_stats df_processed;
  d ← deref df_processed;
  data ← lift (to_dict_records d);
  et ← lift (getitem Employment_Type "Employment_Type" d);
  fulltime_data ← lift (to_dict_records (df_mask (series_eq "Full-Time" et) d));
  et ← lift (getitem Employment_Type "Employment_Type" d);
  parttime_data ← lift (to_dict_records (df_mask (series_eq "Part-Time" et) d));
  mret (analysis summary data fulltime_data parttime_data).

Section analyze.
Context {C : Type} (read_csv read_excel : C -> parsed).

(** Lines 162-167: the reader chosen by the extension of the file name;
    [None] is the unsupported format. *)
Definition read_file (file : FileStorage C) : option parsed :=
  if endswith (filename file) ".csv" then Some (read_csv (stream file))
  else if endswith (filename file) ".xlsx" || endswith (filename file) ".xls"
  then Some (read_excel (stream file))
  else None.

(** [analyze_productivity], on [request.files.get('file')]: the parsed
    frame is the one object of the handler's store, and every exception is
    answered with its text and the status 500. *)
Definition analyze_productivity (file : option (FileStorage C)) : response :=
  match file with
  | None => (error "No file uploaded", 400%nat)
  | Some file =>
      if String.eqb (filename file) "" then (error "Empty filename", 400%nat)
      else
        match read_file file with
        | None => (error "Unsupported file format. Use CSV or Excel", 400%nat)
        | Some (ParseError msg) => (error msg, 500%nat)
        | Some (Frame df) =>
            match missing_columns df with
            | _ :: _ =>
                (error ("Missing columns: "
                        +:+ String.concat ", " (missing_columns df)), 400%nat)
            | [] =>
                match (analysis_of 0%nat [df]).1 with
                | Ok b => (b, 200%nat)
                | Raise e => (error (str_exn e), 500%nat)
                end
            end
        end
  end.

End analyze.

(** [pd.DataFrame(data['data'])] on the row dictionaries of an analysis: the
    columns are the keys of the rows, so there is none when there is no
    row. *)
Definition DataFrame_of_rows (data : list EnrichedRecord) : DataFrame :=
  match data with
  | [] => mkDataFrame [] None None None None None None None None None None None
  | _ :: _ => DataFrame_of_enriched data
  end.

(** [df.to_excel(writer, index=False, sheet_name=sheet_name)] *)
Definition to_excel (df : DataFrame) (sheet_name : string) (writer : workbook) : workbook :=
  writer ++ [(sheet_name, df)].

(** Lines 199-225: the sheets written, when nothing is raised. *)
Definition export_sheets (data : list EnrichedRecord) : result workbook :=
  let df := DataFrame_of_rows data in
  let writer := to_excel df "All Employees" [] in
  et ← getitem Employment_Type "Employment_Type" df;
  let ft_df := df_mask (series_eq "Full-Time" et) df in
  let writer :=
    if bool_decide (0 < len ft_df)%nat then to_excel ft_df "Full-Time" writer
    else writer in
  et ← getitem Employment_Type "Employment_Type" df;
  let pt_df := df_mask (series_eq "Part-Time" et) df in
  let writer :=
    if bool_decide (0 < len pt_df)%nat then to_excel pt_df "Part-Time" writer
    else writer in
  ps ← getitem Productivity_Status "Productivity_Status" df;
  let prod_df := df_mask (series_eq "Productive" ps) df in
  let writer :=
    if bool_decide (0 < len prod_df)%nat then to_excel prod_df "Productive" writer
    else writer in
  ps ← getitem Productivity_Status "Productivity_Status" df;
  let not_prod_df := df_mask (series_eq "Not Productive" ps) df in
  let writer :=
    if bool_decide (0 < len not_prod_df)%nat
    then to_excel not_prod_df "Not Productive" writer
    else writer in
  mret writer.

(** [export_excel], on the rows of [request.json['data']]. *)
Definition export_excel (data : list EnrichedRecord) : response :=
  match export_sheets data with
  | Ok writer => (spreadsheet writer, 200%nat)
  | Raise e => (error (str_exn e), 500%nat)
  end.

(** The rows of every sheet of a workbook. *)
Definition sheet_rows (w : workbook) : list (string * result (list EnrichedRecord)) :=
  (fun sh => (sh.1, to_dict_records sh.2)) <$> w.

(** A sheet that is written only when it has a row. *)
Definition optional_sheet (sheet_name : string) (rows : list EnrichedRecord) :
    list (string * result (list EnrichedRecord)) :=
  match rows with
  | [] => []
  | _ :: _ => [(sheet_name, Ok rows)]
  end.

(** ** Tables and uploads for the examples *)

(** A roster without the leave days. *)
Definition no_leave_days : DataFrame :=
  mkDataFrame [0%nat] (Some ["EMP0001"]) (Some ["Employee 1"])
    (Some ["Engineering"]) (Some ["Full-Time"]) (Some [180%Q]) None
    None None None None None.

(** A roster without the names. *)
Definition no_name : DataFrame :=
  mkDataFrame [0%nat] (Some ["EMP0001"]) None
    (Some ["Engineering"]) (Some ["Full-Time"]) (Some [180%Q]) (Some [0])
    None None None None None.

(** An upload whose contents are the frame itself, for both readers. *)
Definition upload (file_name : string) (df : DataFrame) : FileStorage DataFrame :=
  mkFile file_name df.

(** * Properties *)

(** ** Columns of one table *)

Lemma zip_with_fmap_same {A B C D} (f : B -> C -> D) (g : A -> B) (h : A -> C)
    (l : list A) :
  zip_with f (g <$> l) (h <$> l) = (fun x => f (g x) (h x)) <$> l.
Proof.
  induction l as [|x l IH]; [reflexivity|].
  cbn. now rewrite IH.
Qed.

Lemma zap_fmap {A B C} (f : A -> B -> C) (g : A -> B) (l : list A) :
  zap (f <$> l) (g <$> l) = (fun x => f x (g x)) <$> l.
Proof. exact (zip_with_fmap_same (fun h x => h x) f g l). Qed.

Lemma boolean_index_fmap {A B} (p : A -> bool) (g : A -> B) (l : list A) :
  boolean_index (p <$> l) (g <$> l) = g <$> List.filter p l.
Proof.
  induction l as [|x l IH]; [reflexivity|].
  cbn. destruct (p x); cbn; now rewrite IH.
Qed.

Lemma boolean_index_length {A B} (p : A -> bool) (l : list A) (xs : list B) :
  length xs = length l ->
  length (boolean_index (p <$> l) xs) = length (List.filter p l).
Proof.
  revert xs. induction l as [|x l IH]; intros [|y xs] Hlen; try discriminate.
  - reflexivity.
  - cbn in *. injection Hlen as Hlen.
    destruct (p x); cbn; now rewrite IH.
Qed.

(** ** Objects of the store *)

Lemma lookup_snoc (s : store) (df : DataFrame) : (s ++ [df]) !! length s = Some df.
Proof. induction s as [|x s IH]; [reflexivity | exact IH]. Qed.

Lemma insert_snoc (s : store) (df df' : DataFrame) :
  <[length s := df']> (s ++ [df]) = s ++ [df'].
Proof.
  induction s as [|x s IH]; [reflexivity|].
  exact (f_equal (cons x) IH).
Qed.

Lemma assign_snoc (s : store) (df : DataFrame) stmt :
  assign (length s) stmt (s ++ [df]) =
  match stmt df with
  | Ok df' => (Ok tt, s ++ [df'])
  | Raise e => (Raise e, s ++ [df])
  end.
Proof.
  unfold assign. rewrite lookup_snoc.
  destruct (stmt df); [|reflexivity]. now rewrite insert_snoc.
Qed.

(** ** The calculator is the row-wise map *)

Ltac one_fmap :=
  repeat first
    [ rewrite <- list_fmap_compose
    | rewrite zip_with_fmap_same
    | rewrite zap_fmap ].

Ltac frame_step :=
  rewrite assign_snoc;
  unfold stmt_standard_hours, stmt_leave_hours_deduction, stmt_expected_hours,
    stmt_clip, stmt_productivity_percentage, stmt_productivity_status,
    stmt_round_actual_hours;
  cbn [getitem mbind result_bind mret result_ret DataFrame_of
       index Employee_ID Name Department Employment_Type Actual_Hours
       Leave_Days Standard_Hours Leave_Hours_Deduction Expected_Hours
       Productivity_Percentage Productivity_Status
       set_Standard_Hours set_Leave_Hours_Deduction set_Expected_Hours
       set_Productivity_Percentage set_Productivity_Status set_Actual_Hours].

Lemma calculate_productivity_run (s : store) (l : loc) (rs : list EmployeeRecord) :
  s !! l = Some (DataFrame_of rs) ->
  calculate_productivity l s =
  (Ok (length s), s ++ [DataFrame_of_enriched (enrich <$> rs)]).
Proof.
  intros Hl. unfold calculate_productivity, mbind, M_bind, df_copy.
  rewrite Hl.
  do 7 frame_step.
  unfold M_ret, DataFrame_of_enriched.
  rewrite length_fmap. one_fmap. reflexivity.
Qed.

Lemma to_dict_records_enriched (es : list EnrichedRecord) :
  to_dict_records (DataFrame_of_enriched es) = Ok es.
Proof.
  unfold to_dict_records, DataFrame_of_enriched.
  cbn [getitem mbind result_bind mret result_ret
       index Employee_ID Name Department Employment_Type Actual_Hours
       Leave_Days Standard_Hours Leave_Hours_Deduction Expected_Hours
       Productivity_Percentage Productivity_Status].
  f_equal.
  one_fmap.
  rewrite <- (list_fmap_id es) at 2.
  apply list_fmap_ext. intros _ [[] ? ? ? ? ?] _. reflexivity.
Qed.

Lemma calculate_enrich (rs : list EmployeeRecord) :
  calculate rs = Ok (enrich <$> rs).
Proof.
  unfold calculate.
  rewrite (calculate_productivity_run [DataFrame_of rs] 0%nat rs eq_refl).
  cbn [mbind result_bind length app lookup list_lookup].
  apply to_dict_records_enriched.
Qed.

(** ** Rounding and classification *)

Lemma status_of_productive (x : Q) :
  status_of x = "Productive" <-> (90 <= x)%Q.
Proof.
  unfold status_of, PRODUCTIVITY_THRESHOLD.
  destruct (Qle_bool (inject_Z 90) x) eqn:E.
  - apply Qle_bool_iff in E. split; [intros _; exact E | reflexivity].
  - split; [discriminate|]. intros H. apply Qle_bool_iff in H.
    unfold inject_Z in E. congruence.
Qed.

Lemma status_of_not_productive (x : Q) :
  status_of x = "Not Productive" <-> (x < 90)%Q.
Proof.
  unfold status_of, PRODUCTIVITY_THRESHOLD.
  destruct (Qle_bool (inject_Z 90) x) eqn:E.
  - apply Qle_bool_iff in E. split; [discriminate|].
    intros H. exfalso. exact (Qlt_not_le _ _ H E).
  - split; [intros _ | reflexivity].
    apply Qnot_le_lt. intros H. apply Qle_bool_iff in H.
    unfold inject_Z in E. congruence.
Qed.



Lemma round_half_even_mono (x y : Q) :
  (x <= y)%Q -> round_half_even x <= round_half_even y.
Proof.
  intros Hxy. unfold Qle in Hxy. unfold round_half_even.
  destruct x as [n1 d1], y as [n2 d2]. cbn in *.
  pose proof (Z.div_mod n1 (Z.pos d1) ltac:(lia)) as E1.
  pose proof (Z.mod_pos_bound n1 (Z.pos d1) ltac:(lia)) as B1.
  pose proof (Z.div_mod n2 (Z.pos d2) ltac:(lia)) as E2.
  pose proof (Z.mod_pos_bound n2 (Z.pos d2) ltac:(lia)) as B2.
  set (f1 := n1 / Z.pos d1) in *. set (r1 := n1 mod Z.pos d1) in *.
  set (f2 := n2 / Z.pos d2) in *. set (r2 := n2 mod Z.pos d2) in *.
  assert (Hf : f1 <= f2).
  { destruct (Z_le_gt_dec f1 f2) as [|Hgt]; [assumption | exfalso].
    assert (Z.pos d1 * Z.pos d2 * (f2 + 1) <= Z.pos d1 * Z.pos d2 * f1)
      by (apply Z.mul_le_mono_nonneg_l; lia).
    assert (Z.pos d1 * r2 < Z.pos d1 * Z.pos d2)
      by (apply Z.mul_lt_mono_pos_l; lia).
    assert (0 <= Z.pos d2 * r1) by nia.
    nia. }
  destruct (Z.eq_dec f1 f2) as [Ef|Nf].
  - rewrite <- Ef in *.
    assert (Hr : r1 * Z.pos d2 <= r2 * Z.pos d1) by nia.
    destruct (Z.compare_spec (2 * r1) (Z.pos d1)) as [H1|H1|H1];
      destruct (Z.compare_spec (2 * r2) (Z.pos d2)) as [H2|H2|H2];
      try destruct (Z.even f1); try lia; exfalso; nia.
  - assert (f1 + 1 <= f2) by lia.
    destruct (Z.compare_spec (2 * r1) (Z.pos d1)) as [H1|H1|H1];
      destruct (Z.compare_spec (2 * r2) (Z.pos d2)) as [H2|H2|H2];
      try destruct (Z.even f1); try destruct (Z.even f2); lia.
Qed.


Lemma round2_mono (x y : Q) : (x <= y)%Q -> (round2 x <= round2 y)%Q.
Proof.
  intros H. unfold round2.
  assert (round_half_even (x * 100) <= round_half_even (y * 100)).
  { apply round_half_even_mono. apply Qmult_le_compat_r; [exact H | discriminate]. }
  unfold Qle. cbn. lia.
Qed.







(** ** The int64 range *)

Lemma int64_id (z : Z) : in_int64 z -> int64 z = z.
Proof.
  unfold in_int64, int64, int64_min, int64_max. intros H.
  rewrite Z.mod_small by lia. lia.
Qed.

Lemma standard_hours_of_cases (x : string) :
  standard_hours_of x = 200 \/ standard_hours_of x = 100.
Proof.
  unfold standard_hours_of. destruct (String.eqb x "Full-Time"); auto.
Qed.

(** Within the range of [no_overflow] nothing wraps around. *)
Lemma enrich_no_overflow (r : EmployeeRecord) :
  no_overflow (leave_days r) ->
  leave_hours_deduction (enrich r) = leave_days r * 8
  /\ expected_hours (enrich r)
     = Z.max 1 (standard_hours (enrich r) - leave_days r * 8).
Proof.
  unfold no_overflow. intros H.
  unfold enrich. cbn [leave_hours_deduction expected_hours standard_hours].
  unfold HOURS_PER_LEAVE_DAY.
  destruct (standard_hours_of_cases (employment_type r)) as [-> | ->];
    rewrite !int64_id; unfold in_int64, int64_min, int64_max; lia.
Qed.


(** ** Claims on the calculator *)

(** C4. The calculator returns, for every input sequence, a sequence of the
    same length in the same order: one function of a single record gives
    every output row from the input row at the same position, whatever the
    rest of the table; that function keeps the identifying fields. *)
Theorem calculate_row_wise :
  exists f : EmployeeRecord -> EnrichedRecord,
    (forall r, employee_id (record (f r)) = employee_id r
               /\ name (record (f r)) = name r
               /\ department (record (f r)) = department r
               /\ employment_type (record (f r)) = employment_type r
               /\ leave_days (record (f r)) = leave_days r)
    /\ forall rs : list EmployeeRecord,
         exists es, calculate rs = Ok es
                    /\ length es = length rs
                    /\ forall i : nat, es !! i = f <$> (rs !! i).
Proof.
  exists enrich. split; [intros r; repeat split|].
  intros rs. exists (enrich <$> rs). split; [apply calculate_enrich|].
  split; [apply length_fmap|]. intros i. apply list_lookup_fmap.
Qed.

(** Properties of single rows lift to the whole output. *)
Lemma calculate_Forall2 (P : EmployeeRecord -> EnrichedRecord -> Prop)
    (rs : list EmployeeRecord) :
  (forall r, P r (enrich r)) ->
  exists es, calculate rs = Ok es /\ Forall2 P rs es.
Proof.
  intros HP. exists (enrich <$> rs). split; [apply calculate_enrich|].
  induction rs as [|r rs IH]; constructor; auto.
Qed.


(** C3. An output record is "Productive" exactly when its percentage is at
    least 90 and "Not Productive" exactly when it is below; at 90.00 it is
    "Productive", at 89.99 "Not Productive". *)
Theorem status_threshold (rs : list EmployeeRecord) :
  exists es, calculate rs = Ok es
    /\ Forall (fun e =>
         (productivity_status e = "Productive"
            <-> (90 <= productivity_percentage e)%Q)
         /\ (productivity_status e = "Not Productive"
            <-> (productivity_percentage e < 90)%Q)
         /\ ((productivity_percentage e == 90.00)%Q
            -> productivity_status e = "Productive")
         /\ ((productivity_percentage e == 89.99)%Q
            -> productivity_status e = "Not Productive"))
       es.
Proof.
  destruct (calculate_Forall2 (fun _ e =>
    productivity_status e = status_of (productivity_percentage e)) rs)
    as (es & Hes & HF); [reflexivity|].
  exists es. split; [exact Hes|].
  clear Hes. induction HF as [|r e rs es He _ IH]; constructor; [|exact IH].
  rewrite He. repeat split.
  - apply status_of_productive.
  - apply status_of_productive.
  - apply status_of_not_productive.
  - apply status_of_not_productive.
  - intros H. apply status_of_productive. rewrite H. discriminate.
  - intros H. apply status_of_not_productive. rewrite H. reflexivity.
Qed.






(** C1 (as the code has it). The calculator validates no employment type:
    it returns a result for every input, with the full-time standard hours
    for "Full-Time" and the part-time standard hours for every other value,
    recognised or not. *)
Theorem standard_hours_default (rs : list EmployeeRecord) :
  exists es, calculate rs = Ok es
    /\ Forall2 (fun r e =>
         (employment_type r = "Full-Time"
            -> standard_hours e = FULLTIME_STANDARD_HOURS)
         /\ (employment_type r <> "Full-Time"
            -> standard_hours e = PARTTIME_STANDARD_HOURS))
       rs es.
Proof.
  apply calculate_Forall2. intros r. cbn. unfold standard_hours_of.
  destruct (String.eqb_spec (employment_type r) "Full-Time"); split; congruence.
Qed.

(** ** The store under the calculator and the aggregator *)

Lemma calculate_productivity_store (s : store) (l : loc) :
  calculate_productivity l s = (Raise ReferenceError, s)
  \/ exists x, (calculate_productivity l s).2 = s ++ [x]
       /\ forall l', (calculate_productivity l s).1 = Ok l' -> l' = length s.
Proof.
  unfold calculate_productivity, mbind, M_bind, df_copy.
  destruct (s !! l) as [df|]; [right | left; reflexivity].
  repeat (rewrite assign_snoc;
          match goal with
          | |- context [match ?stmt ?d with _ => _ end] =>
              destruct (stmt d); cbn; [|eexists; split; [reflexivity|discriminate]]
          end).
  eexists. split; [reflexivity|]. cbn. congruence.
Qed.

(** C9. Neither function changes an object that exists when it is called:
    after [calculate_productivity] every such object, the input table
    included, is as before, and the table returned is a new object; the
    aggregator leaves the whole store as it is. *)
Theorem input_unchanged (s : store) (l : loc) :
  (forall (l0 : loc) (df0 : DataFrame),
     s !! l0 = Some df0 -> (calculate_productivity l s).2 !! l0 = Some df0)
  /\ (forall l' : loc,
        (calculate_productivity l s).1 = Ok l' ->
        s !! l' = None /\ is_Some ((calculate_productivity l s).2 !! l'))
  /\ (generate_summary_stats l s).2 = s.
Proof.
  repeat split.
  - intros l0 df0 H0.
    destruct (calculate_productivity_store s l) as [-> | (x & -> & _)];
      [exact H0 | now apply lookup_app_l_Some].
  - destruct (calculate_productivity_store s l) as [E | (x & _ & Hl)];
      [rewrite E in H; discriminate|].
    rewrite (Hl _ H). now apply lookup_ge_None.
  - destruct (calculate_productivity_store s l) as [E | (x & E & Hl)];
      [rewrite E in H; discriminate|].
    rewrite E, (Hl _ H), lookup_snoc. eauto.
  - unfold generate_summary_stats, mbind, M_bind, deref, lift.
    destruct (s !! l); reflexivity.
Qed.

(** ** The aggregator computes the row-wise statistics *)

Lemma has_rows_enriched (es : list EnrichedRecord) :
  has_rows (DataFrame_of_enriched es) es.
Proof. repeat split. apply length_seq. Qed.

Lemma has_rows_mask (p : EnrichedRecord -> bool) df es :
  has_rows df es -> has_rows (df_mask (p <$> es) df) (List.filter p es).
Proof.
  intros (Hlen & H1 & H2 & H3 & H4 & H5 & H6).
  unfold has_rows, df_mask, len in *.
  cbn [index Employee_ID Department Employment_Type Actual_Hours
       Productivity_Percentage Productivity_Status].
  rewrite H1, H2, H3, H4, H5, H6.
  cbn [fmap option_fmap option_map].
  rewrite !boolean_index_fmap.
  repeat split. now apply boolean_index_length.
Qed.

Lemma series_eq_status v (es : list EnrichedRecord) :
  series_eq v (productivity_status <$> es)
  = (fun e => String.eqb v (productivity_status e)) <$> es.
Proof. unfold series_eq. now rewrite <- list_fmap_compose. Qed.

Lemma series_eq_type v (es : list EnrichedRecord) :
  series_eq v (employment_type ∘ record <$> es)
  = (fun e => String.eqb v (employment_type (record e))) <$> es.
Proof. unfold series_eq. now rewrite <- list_fmap_compose. Qed.

Lemma len_status v df es :
  has_rows df es ->
  len (df_mask (series_eq v (productivity_status <$> es)) df)
  = length (with_status v es).
Proof.
  intros H. rewrite series_eq_status.
  now destruct (has_rows_mask (fun e => String.eqb v (productivity_status e)) df es H).
Qed.

Lemma Series_mean_fmap {A} (f : A -> Q) (l : list A) :
  l <> [] -> Series_mean (f <$> l) = np_float64 (Qmean (f <$> l)).
Proof. destruct l; [congruence | reflexivity]. Qed.

Lemma segment_stats_rows df seg :
  has_rows df seg -> seg <> [] -> segment_stats df = Ok (segment_of seg).
Proof.
  intros H Hne. pose proof H as (Hlen & H1 & H2 & H3 & H4 & H5 & H6).
  unfold segment_stats, getitem. rewrite H4, H5, H6.
  cbn [mbind result_bind].
  rewrite !len_status by exact H.
  rewrite !Series_mean_fmap by exact Hne.
  cbn [scalar_round2 mbind result_bind mret result_ret].
  unfold segment_of. now rewrite Hlen.
Qed.

Lemma groupby_lookup {A} (keys : list string) (rows : list A) (k : string) :
  groupby keys rows !! k =
  match boolean_index (String.eqb k <$> keys) rows with
  | [] => None
  | g => Some g
  end.
Proof.
  revert rows. induction keys as [|k' keys IH]; intros [|x rows];
    try reflexivity.
  unfold groupby in *. cbn.
  rewrite lookup_insert.
  destruct (String.eqb_spec k k') as [->|Hne].
  - rewrite decide_True by reflexivity.
    rewrite IH. now destruct (boolean_index _ rows).
  - rewrite decide_False by congruence. apply IH.
Qed.

Lemma department_agg_rows df es :
  has_rows df es ->
  exists m, department_agg df = Ok m
    /\ forall d, m !! d = match with_department d es with
                          | [] => None
                          | g => Some (department_of g)
                          end.
Proof.
  intros (Hlen & H1 & H2 & H3 & H4 & H5 & H6).
  unfold department_agg, getitem. rewrite H1, H2, H5.
  cbn [mbind result_bind mret result_ret].
  eexists. split; [reflexivity|]. intros d'.
  rewrite lookup_fmap, groupby_lookup.
  rewrite zip_with_fmap_same, <- list_fmap_compose.
  rewrite (boolean_index_fmap
    (fun e => String.eqb d' (department (record e)))).
  fold (with_department d' es).
  destruct (with_department d' es) as [|e g]; [reflexivity|].
  cbn. unfold agg, department_of. cbn.
  now rewrite <- !list_fmap_compose, !length_fmap.
Qed.

Lemma segment_branch df es (v : string) :
  has_rows df es ->
  (if bool_decide
        (0 < len (df_mask (series_eq v (employment_type ∘ record <$> es)) df))%nat
   then Some <$> segment_stats
                   (df_mask (series_eq v (employment_type ∘ record <$> es)) df)
   else mret None)
  = Ok (segment_opt (with_type v es)).
Proof.
  intros H. rewrite series_eq_type.
  pose proof (has_rows_mask
    (fun e => String.eqb v (employment_type (record e))) df es H) as Hseg.
  fold (with_type v es) in Hseg.
  destruct Hseg as [Hlen Hcols]. rewrite Hlen.
  destruct (with_type v es) as [|e seg] eqn:E; [reflexivity|].
  rewrite bool_decide_true by (cbn; lia).
  rewrite (segment_stats_rows _ (e :: seg)); [reflexivity | | discriminate].
  split; [exact Hlen | exact Hcols].
Qed.

Lemma summary_of_rows df es :
  has_rows df es -> es <> [] ->
  exists s, summary_of df = Ok s
    /\ total_employees s = length es
    /\ productive_count s = length (with_status "Productive" es)
    /\ not_productive_count s = length (with_status "Not Productive" es)
    /\ average_productivity s = round2 (Qmean (productivity_percentage <$> es))
    /\ fulltime_stats s = segment_opt (with_type "Full-Time" es)
    /\ parttime_stats s = segment_opt (with_type "Part-Time" es)
    /\ forall d, department_stats s !! d =
                 match with_department d es with
                 | [] => None
                 | g => Some (department_of g)
                 end.
Proof.
  intros H Hne. pose proof H as (Hlen & H1 & H2 & H3 & H4 & H5 & H6).
  destruct (department_agg_rows df es H) as (m & Hm & Hdept).
  unfold summary_of, getitem. rewrite H3, H5, H6.
  cbn [mbind result_bind].
  rewrite !len_status by exact H.
  rewrite Series_mean_fmap by exact Hne.
  cbn [scalar_round2 mbind result_bind].
  rewrite !segment_branch by exact H.
  cbn [mbind result_bind].
  rewrite Hm.
  cbn [mbind result_bind mret result_ret].
  eexists. split; [reflexivity|].
  cbn [total_employees productive_count not_productive_count
       average_productivity fulltime_stats parttime_stats department_stats].
  repeat split; try assumption.
Qed.

Lemma summary_of_empty df :
  has_rows df [] ->
  summary_of df = Raise (AttributeError "'float' object has no attribute 'round'").
Proof.
  intros (Hlen & H1 & H2 & H3 & H4 & H5 & H6).
  unfold summary_of, getitem. rewrite H5, H6. reflexivity.
Qed.

Lemma summarize_frame (es : list EnrichedRecord) :
  summarize es = summary_of (DataFrame_of_enriched es).
Proof. reflexivity. Qed.

Lemma status_partition (es : list EnrichedRecord) :
  Forall (fun e => productivity_status e = "Productive"
                   \/ productivity_status e = "Not Productive") es ->
  (length (with_status "Productive" es)
   + length (with_status "Not Productive" es))%nat = length es.
Proof.
  unfold with_status.
  induction 1 as [|e es [He|He] _ IH]; [reflexivity| |];
    cbn [List.filter]; rewrite He, String.eqb_refl.
  - replace (String.eqb "Not Productive" "Productive") with false
      by reflexivity.
    cbn [length]. lia.
  - replace (String.eqb "Productive" "Not Productive") with false
      by reflexivity.
    cbn [length]. lia.
Qed.

(** ** Claims on the aggregator *)

(** C5 (the code at the empty table). The calculator returns the empty
    sequence; the aggregator returns no summary: the mean of the empty
    percentage column has no [round] method, and [AttributeError] is
    raised. *)
Theorem empty_input :
  calculate [] = Ok []
  /\ summarize []
     = Raise (AttributeError "'float' object has no attribute 'round'").
Proof. split; reflexivity. Qed.

(** The aggregator returns a summary on every non-empty table. *)
Lemma summarize_rows (es : list EnrichedRecord) :
  es <> [] ->
  exists s, summarize es = Ok s
    /\ total_employees s = length es
    /\ productive_count s = length (with_status "Productive" es)
    /\ not_productive_count s = length (with_status "Not Productive" es)
    /\ average_productivity s = round2 (Qmean (productivity_percentage <$> es))
    /\ fulltime_stats s = segment_opt (with_type "Full-Time" es)
    /\ parttime_stats s = segment_opt (with_type "Part-Time" es)
    /\ forall d, department_stats s !! d =
                 match with_department d es with
                 | [] => None
                 | g => Some (department_of g)
                 end.
Proof.
  intros Hne. rewrite summarize_frame.
  apply summary_of_rows; [apply has_rows_enriched | exact Hne].
Qed.

(** C6. On enriched records, whose status is one of the two labels, the
    summary returned has
    [productive_count + not_productive_count = total_employees]; a summary
    is returned unless the input is empty. *)
Theorem counts_partition (es : list EnrichedRecord) :
  Forall (fun e => productivity_status e = "Productive"
                   \/ productivity_status e = "Not Productive") es ->
  match summarize es with
  | Ok s => (productive_count s + not_productive_count s)%nat = total_employees s
  | Raise _ => es = []
  end.
Proof.
  intros Hst. destruct es as [|e es]; [reflexivity|].
  destruct (summarize_rows (e :: es)) as (s & -> & Ht & Hp & Hn & _);
    [discriminate|].
  rewrite Ht, Hp, Hn. now apply status_partition.
Qed.








(** * Further properties of the calculator and the aggregator *)

(** ** The calculator on any roster *)




(** X1. The calculator reads three columns of its input, in this order:
    the employment type, the leave days and the hours.  On a table that
    has them it returns a new object; otherwise it raises [KeyError] with
    the first of them that is absent.  The identifier, name and department
    columns are not needed. *)
Theorem calculate_productivity_columns (s : store) (l : loc) (df : DataFrame) :
  s !! l = Some df ->
  (calculate_productivity l s).1 =
    match Employment_Type df, Leave_Days df, Actual_Hours df with
    | None, _, _ => Raise (KeyError "Employment_Type")
    | Some _, None, _ => Raise (KeyError "Leave_Days")
    | Some _, Some _, None => Raise (KeyError "Actual_Hours")
    | Some _, Some _, Some _ => Ok (length s)
    end.
Proof.
  intros Hl. unfold calculate_productivity, mbind, M_bind, df_copy.
  rewrite Hl.
  destruct df as [ix c1 c2 c3 c4 c5 c6 c7 c8 c9 c10 c11].
  cbn [Employment_Type Leave_Days Actual_Hours].
  destruct c4 as [et|]; [|frame_step; reflexivity].
  frame_step.
  destruct c6 as [ld|]; [|frame_step; destruct c5; reflexivity].
  do 3 frame_step.
  destruct c5 as [ah|]; [|frame_step; reflexivity].
  do 3 frame_step. reflexivity.
Qed.

Lemma ratio_mono (a a' : Q) (e : Z) :
  1 <= e -> (a <= a')%Q ->
  (a / inject_Z e * 100 <= a' / inject_Z e * 100)%Q.
Proof.
  intros He Ha.
  apply Qmult_le_compat_r; [|discriminate].
  apply Qmult_le_compat_r; [exact Ha|].
  apply Qinv_le_0_compat. unfold Qle. cbn. lia.
Qed.

Lemma ratio_antitone (a : Q) (e e' : Z) :
  1 <= e' -> e' <= e -> (0 <= a)%Q ->
  (a / inject_Z e * 100 <= a / inject_Z e' * 100)%Q.
Proof.
  intros He' He Ha.
  apply Qmult_le_compat_r; [|discriminate].
  unfold Qdiv. rewrite !(Qmult_comm a).
  apply Qmult_le_compat_r; [|exact Ha].
  apply Qle_shift_inv_l; [unfold Qlt; cbn; lia|].
  rewrite Qmult_comm. apply Qle_shift_div_r; [unfold Qlt; cbn; lia|].
  rewrite Qmult_1_l. unfold Qle. cbn. lia.
Qed.

(** X2. More hours never lower the result: of two tables whose rows agree
    on employment type and leave days, row by row, the one with at least
    as many hours in every row has the same expected hours and at least
    the percentage in every row, and a "Productive" row stays
    "Productive". *)
Theorem more_hours_never_lower (rs rs' : list EmployeeRecord) :
  Forall2 (fun r r' => employment_type r' = employment_type r
                       /\ leave_days r' = leave_days r
                       /\ (actual_hours r <= actual_hours r')%Q) rs rs' ->
  exists es es', calculate rs = Ok es /\ calculate rs' = Ok es'
    /\ Forall2 (fun e e' =>
         expected_hours e' = expected_hours e
         /\ (productivity_percentage e <= productivity_percentage e')%Q
         /\ (productivity_status e = "Productive"
             -> productivity_status e' = "Productive")) es es'.
Proof.
  intros H. exists (enrich <$> rs), (enrich <$> rs').
  split; [apply calculate_enrich|]. split; [apply calculate_enrich|].
  induction H as [|r r' rs rs' (Ht & Hl & Ha) _ IH]; [constructor|].
  cbn [fmap list_fmap]. constructor; [|exact IH].
  assert (Hp : (productivity_percentage (enrich r)
                <= productivity_percentage (enrich r'))%Q).
  { unfold enrich. cbn [productivity_percentage]. rewrite Ht, Hl.
    apply round2_mono, ratio_mono; [lia | exact Ha]. }
  split; [unfold enrich; cbn [expected_hours]; now rewrite Ht, Hl|].
  split; [exact Hp|].
  change (productivity_status (enrich r))
    with (status_of (productivity_percentage (enrich r))).
  change (productivity_status (enrich r'))
    with (status_of (productivity_percentage (enrich r'))).
  intros Hs. apply status_of_productive. apply status_of_productive in Hs.
  eapply Qle_trans; [exact Hs|]. exact Hp.
Qed.

(** X3. More leave never lowers the result, as long as the deduction stays
    in the int64 range: when the hours of a row are not negative, more
    leave days on the same hours and employment type give expected hours
    that are not higher, a percentage that is not lower, and a
    "Productive" row stays "Productive". *)
Theorem more_leave_never_lower (rs rs' : list EmployeeRecord) :
  Forall2 (fun r r' => employment_type r' = employment_type r
                       /\ (actual_hours r' == actual_hours r)%Q
                       /\ (0 <= actual_hours r)%Q
                       /\ leave_days r <= leave_days r'
                       /\ no_overflow (leave_days r)
                       /\ no_overflow (leave_days r')) rs rs' ->
  exists es es', calculate rs = Ok es /\ calculate rs' = Ok es'
    /\ Forall2 (fun e e' =>
         expected_hours e' <= expected_hours e
         /\ (productivity_percentage e <= productivity_percentage e')%Q
         /\ (productivity_status e = "Productive"
             -> productivity_status e' = "Productive")) es es'.
Proof.
  intros H. exists (enrich <$> rs), (enrich <$> rs').
  split; [apply calculate_enrich|]. split; [apply calculate_enrich|].
  induction H as [|r r' rs rs' (Ht & Ha & Hpos & Hl & Hn & Hn') _ IH];
    [constructor|].
  cbn [fmap list_fmap]. constructor; [|exact IH].
  assert (He : expected_hours (enrich r') <= expected_hours (enrich r)).
  { destruct (enrich_no_overflow r Hn) as [_ ->].
    destruct (enrich_no_overflow r' Hn') as [_ ->].
    unfold enrich. cbn [standard_hours]. rewrite Ht. lia. }
  assert (Hp : (productivity_percentage (enrich r)
                <= productivity_percentage (enrich r'))%Q).
  { change (productivity_percentage (enrich r)) with
      (round2 (actual_hours r / inject_Z (expected_hours (enrich r)) * 100)).
    change (productivity_percentage (enrich r')) with
      (round2 (actual_hours r' / inject_Z (expected_hours (enrich r')) * 100)).
    apply round2_mono. rewrite Ha.
    apply ratio_antitone; [|exact He|exact Hpos].
    unfold enrich. cbn [expected_hours]. lia. }
  split; [exact He|]. split; [exact Hp|].
  change (productivity_status (enrich r))
    with (status_of (productivity_percentage (enrich r))).
  change (productivity_status (enrich r'))
    with (status_of (productivity_percentage (enrich r'))).
  intros Hs. apply status_of_productive. apply status_of_productive in Hs.
  eapply Qle_trans; [exact Hs|]. exact Hp.
Qed.


(** ** Counts of the summary *)

Lemma filter_two_length {A} (p q : A -> bool) (l : list A) :
  (forall x, p x = true -> q x = true -> False) ->
  (length (List.filter p l) + length (List.filter q l) <= length l)%nat
  /\ ((length (List.filter p l) + length (List.filter q l))%nat = length l
      <-> Forall (fun x => p x = true \/ q x = true) l).
Proof.
  intros Hdis. induction l as [|x l [IHle IHeq]].
  - split; [reflexivity|]. split; [constructor | reflexivity].
  - cbn [List.filter].
    destruct (p x) eqn:Ep, (q x) eqn:Eq; cbn [length].
    + exfalso. eauto.
    + split; [lia|]. rewrite Forall_cons. split.
      * intros H. split; [now left | apply IHeq; lia].
      * intros [_ H]. apply IHeq in H. lia.
    + split; [lia|]. rewrite Forall_cons. split.
      * intros H. split; [now right | apply IHeq; lia].
      * intros [_ H]. apply IHeq in H. lia.
    + split; [lia|]. rewrite Forall_cons. split.
      * intros H. lia.
      * intros [[H|H] _]; cbn in H; congruence.
Qed.

Lemma segment_opt_count (seg : list EnrichedRecord) :
  from_option Segment.count 0%nat (segment_opt seg) = length seg.
Proof. destruct seg; reflexivity. Qed.

Lemma with_type_cover (es : list EnrichedRecord) :
  (length (with_type "Full-Time" es) + length (with_type "Part-Time" es)
   <= length es)%nat
  /\ ((length (with_type "Full-Time" es)
       + length (with_type "Part-Time" es))%nat = length es
      <-> Forall (fun e => employment_type (record e) = "Full-Time"
                           \/ employment_type (record e) = "Part-Time") es).
Proof.
  unfold with_type.
  destruct (filter_two_length
    (fun e => String.eqb "Full-Time" (employment_type (record e)))
    (fun e => String.eqb "Part-Time" (employment_type (record e))) es)
    as [Hle Heq].
  { intros x Hp Hq. apply String.eqb_eq in Hp, Hq. congruence. }
  split; [exact Hle|]. rewrite Heq.
  apply Forall_iff. intros x. rewrite !String.eqb_eq.
  split; (intros [H|H]; [left | right]); congruence.
Qed.

Lemma segment_counts_cover_eq (es : list EnrichedRecord) :
  es <> [] ->
  Forall (fun e => employment_type (record e) = "Full-Time"
                   \/ employment_type (record e) = "Part-Time") es ->
  exists s, summarize es = Ok s
    /\ total_employees s = length es
    /\ (from_option Segment.count 0%nat (fulltime_stats s)
        + from_option Segment.count 0%nat (parttime_stats s))%nat
       = total_employees s.
Proof.
  intros Hne Hty.
  destruct (summarize_rows es Hne)
    as (s & Hs & Ht & _ & _ & _ & Hft & Hpt & _).
  exists s. split; [exact Hs|]. split; [exact Ht|].
  rewrite Hft, Hpt, Ht, !segment_opt_count. now apply with_type_cover.
Qed.

(** X6. The counts of [fulltime_stats] and [parttime_stats], an empty
    dictionary counting as 0, add up to at most [total_employees]; they
    add up to it exactly when every record has one of the two employment
    types.  A summary is returned unless the input is empty. *)
Theorem segment_counts_cover (es : list EnrichedRecord) :
  match summarize es with
  | Ok s =>
      let ft := from_option Segment.count 0%nat (fulltime_stats s) in
      let pt := from_option Segment.count 0%nat (parttime_stats s) in
      (ft + pt <= total_employees s)%nat
      /\ ((ft + pt)%nat = total_employees s
          <-> Forall (fun e => employment_type (record e) = "Full-Time"
                               \/ employment_type (record e) = "Part-Time") es)
  | Raise _ => es = []
  end.
Proof.
  destruct es as [|e0 es0]; [reflexivity|].
  destruct (summarize_rows (e0 :: es0))
    as (s & -> & Ht & _ & _ & _ & Hft & Hpt & _); [discriminate|].
  set (es := e0 :: es0) in *. cbn zeta.
  rewrite Hft, Hpt, Ht, !segment_opt_count. apply with_type_cover.
Qed.

Lemma Forall_filter_keep {A} (P : A -> Prop) (p : A -> bool) (l : list A) :
  Forall P l -> Forall P (List.filter p l).
Proof.
  induction 1 as [|x l Hx _ IH]; [constructor|].
  cbn [List.filter]. destruct (p x); [constructor|]; assumption.
Qed.

(** X7. A sub-summary that is present has a count of at least 1, and when
    every status is one of the two labels its [productive] and
    [not_productive] add up to its [count]. *)
Theorem segment_consistent (es : list EnrichedRecord) :
  Forall (fun e => productivity_status e = "Productive"
                   \/ productivity_status e = "Not Productive") es ->
  match summarize es with
  | Ok s =>
      forall seg, fulltime_stats s = Some seg \/ parttime_stats s = Some seg ->
        (0 < Segment.count seg)%nat
        /\ (Segment.productive seg + Segment.not_productive seg)%nat
           = Segment.count seg
  | Raise _ => es = []
  end.
Proof.
  intros Hst. destruct es as [|e0 es0]; [reflexivity|].
  destruct (summarize_rows (e0 :: es0))
    as (s & -> & _ & _ & _ & _ & Hft & Hpt & _); [discriminate|].
  set (es := e0 :: es0) in *.
  assert (H : forall v seg, segment_opt (with_type v es) = Some seg ->
    (0 < Segment.count seg)%nat
    /\ (Segment.productive seg + Segment.not_productive seg)%nat
       = Segment.count seg).
  { intros v seg Hseg.
    assert (Hv : Forall (fun e => productivity_status e = "Productive"
                           \/ productivity_status e = "Not Productive")
                   (with_type v es)) by now apply Forall_filter_keep.
    destruct (with_type v es) as [|e g]; [discriminate|].
    injection Hseg as <-. cbn [segment_of Segment.count Segment.productive
      Segment.not_productive].
    split; [cbn [length]; lia | now apply status_partition]. }
  intros seg [Hs|Hs]; [rewrite Hft in Hs | rewrite Hpt in Hs]; eapply H; eauto.
Qed.

(** The sizes of the groups of [groupby] add up to the number of rows. *)
Lemma map_fold_groupby_insert {A} (sz : list A -> nat) (m : gmap string (list A)) k x :
  (forall y g, sz (y :: g) = S (sz g)) -> sz [] = 0%nat ->
  map_fold (fun _ g n => (sz g + n)%nat) 0%nat
    (<[k := x :: default [] (m !! k)]> m)
  = S (map_fold (fun _ g n => (sz g + n)%nat) 0%nat m).
Proof.
  intros Hcons Hnil.
  destruct (m !! k) as [g|] eqn:E; cbn [default].
  - rewrite <- insert_delete_eq.
    rewrite map_fold_insert_L; [|intros; lia|apply lookup_delete_eq].
    rewrite (map_fold_delete_L _ _ k g m); [|intros; lia|exact E].
    unfold id. rewrite Hcons. lia.
  - rewrite map_fold_insert_L; [|intros; lia|exact E].
    rewrite Hcons, Hnil. reflexivity.
Qed.

Lemma map_fold_groupby {A} (sz : list A -> nat) (keys : list string) (rows : list A) :
  (forall y g, sz (y :: g) = S (sz g)) -> sz [] = 0%nat ->
  map_fold (fun _ g n => (sz g + n)%nat) 0%nat (groupby keys rows)
  = length (zip keys rows).
Proof.
  intros Hcons Hnil.
  revert rows. induction keys as [|k keys IH]; intros [|x rows];
    try reflexivity.
  change (groupby (k :: keys) (x :: rows))
    with (<[k := x :: default [] (groupby keys rows !! k)]> (groupby keys rows)).
  rewrite map_fold_groupby_insert, IH by assumption. reflexivity.
Qed.

Lemma groupby_nonempty {A} (keys : list string) (rows : list A) k g :
  groupby keys rows !! k = Some g -> g <> [].
Proof.
  rewrite groupby_lookup.
  destruct (boolean_index _ rows); [discriminate|]. intros [= <-]. discriminate.
Qed.

Lemma summarize_department_stats (es : list EnrichedRecord) :
  es <> [] ->
  exists s, summarize es = Ok s
    /\ total_employees s = length es
    /\ department_stats s
       = agg <$> groupby (department ∘ record <$> es)
                   (zip (productivity_percentage <$> es)
                        (employee_id ∘ record <$> es)).
Proof.
  intros Hne. rewrite summarize_frame.
  destruct (has_rows_enriched es) as (Hlen & H1 & H2 & H3 & H4 & H5 & H6).
  pose proof (has_rows_enriched es) as H.
  unfold summary_of, getitem. rewrite H3, H5, H6.
  cbn [mbind result_bind].
  rewrite !len_status by exact H.
  rewrite Series_mean_fmap by exact Hne.
  cbn [scalar_round2 mbind result_bind].
  rewrite !segment_branch by exact H.
  cbn [mbind result_bind].
  unfold department_agg, getitem. rewrite H1, H2, H5.
  cbn [mbind result_bind mret result_ret].
  eexists. split; [reflexivity|].
  cbn [total_employees department_stats]. split; [exact Hlen | reflexivity].
Qed.

(** X8. On a table whose department and identifier columns have no blank
    cell, as every table of the embedding, the employee counts of
    [department_stats] add up to [total_employees], and every department
    listed has at least one employee.  (A row whose department is blank is
    in no group of pandas, and a blank identifier is not counted.) *)
Theorem department_counts_total (es : list EnrichedRecord) :
  match summarize es with
  | Ok s =>
      map_fold (fun _ d n => (Dept.Employee_ID d + n)%nat) 0%nat
        (department_stats s) = total_employees s
      /\ map_Forall (fun _ d => (0 < Dept.Employee_ID d)%nat) (department_stats s)
  | Raise _ => es = []
  end.
Proof.
  destruct es as [|e0 es0]; [reflexivity|].
  destruct (summarize_department_stats (e0 :: es0)) as (s & -> & Ht & Hd);
    [discriminate|].
  set (es := e0 :: es0) in *. rewrite Hd, Ht. split.
  - rewrite map_fold_fmap.
    rewrite (map_fold_groupby (fun g => Dept.Employee_ID (agg g)));
      [|reflexivity|reflexivity].
    rewrite !length_zip_with, !length_fmap. lia.
  - intros k d. rewrite lookup_fmap.
    destruct (groupby _ _ !! k) as [g|] eqn:E; [|discriminate].
    intros [= <-]. apply groupby_nonempty in E.
    unfold agg. cbn [Dept.Employee_ID]. rewrite length_fmap.
    destruct g; [congruence | cbn; lia].
Qed.

(** ** Averages of the summary *)





(** * The sample data *)

(** ** Formatting of the identifiers *)

(** The digits of [i] behind any number of zeros read back as [i]. *)
Lemma zeros_str_parse (k i : nat) :
  exists d, NilEmpty.uint_of_string (zeros k +:+ str i) = Some d
    /\ Nat.of_uint d = i.
Proof.
  induction k as [|k (d & Hd & Hi)].
  - exists (Nat.to_uint i). split; [apply NilEmpty.usu | apply Unsigned.of_to].
  - exists (Decimal.D0 d). split; [|exact Hi].
    change (zeros (S k) +:+ str i)
      with (String (Ascii.Ascii false false false false true true false false)
              (zeros k +:+ str i)).
    cbn [NilEmpty.uint_of_string]. now rewrite Hd.
Qed.

Lemma format_04d_inj (i j : nat) : format_04d i = format_04d j -> i = j.
Proof.
  unfold format_04d. intros E.
  destruct (zeros_str_parse (4 - String.length (str i)) i) as (d & Hd & <-).
  destruct (zeros_str_parse (4 - String.length (str j)) j) as (d' & Hd' & <-).
  rewrite E in Hd. congruence.
Qed.

Lemma employee_ids_NoDup (start n : nat) :
  NoDup ((fun i => "EMP" +:+ format_04d i) <$> seq start n).
Proof.
  apply NoDup_fmap_2_strong; [|apply NoDup_seq].
  intros i j _ _ E. apply format_04d_inj.
  exact (String.app_inj "EMP" _ _ E).
Qed.

Lemma ratio_lower (c a : Q) (e : Z) :
  0 < e -> (c * inject_Z e <= a * 100)%Q -> (c <= a / inject_Z e * 100)%Q.
Proof.
  intros He H.
  assert (Hp : (0 < inject_Z e)%Q) by (unfold Qlt; cbn; lia).
  apply Qle_trans with (a * 100 / inject_Z e)%Q.
  - now apply Qle_shift_div_l.
  - apply Qle_lteq. right. field. intros E. rewrite E in Hp. discriminate.
Qed.

Lemma ratio_upper (c a : Q) (e : Z) :
  0 < e -> (a * 100 <= c * inject_Z e)%Q -> (a / inject_Z e * 100 <= c)%Q.
Proof.
  intros He H.
  assert (Hp : (0 < inject_Z e)%Q) by (unfold Qlt; cbn; lia).
  apply Qle_trans with (a * 100 / inject_Z e)%Q.
  - apply Qle_lteq. right. field. intros E. rewrite E in Hp. discriminate.
  - now apply Qle_shift_div_r.
Qed.

(** The calculator on a generated row. *)
Lemma sampled_enrich (i : nat) (r : EmployeeRecord) :
  sampled i r ->
  expected_hours (enrich r)
    = standard_hours (enrich r) - leave_hours_deduction (enrich r)
  /\ 60 <= expected_hours (enrich r)
  /\ (33.33 <= productivity_percentage (enrich r))%Q
  /\ (productivity_percentage (enrich r) <= 121.67)%Q
  /\ (employment_type (record (enrich r)) = "Full-Time"
      \/ employment_type (record (enrich r)) = "Part-Time").
Proof.
  intros (_ & _ & _ & Hty & Hld & Hlo & Hhi).
  assert (Hcase : employment_type r = "Full-Time"
                  \/ employment_type r = "Part-Time").
  { unfold employment_types in Hty.
    apply elem_of_cons in Hty as [Hty|Hty]; [now left | right].
    now apply list_elem_of_singleton in Hty. }
  assert (Hsh : standard_hours_of (employment_type r) = 200
                \/ standard_hours_of (employment_type r) = 100).
  { destruct Hcase as [-> | ->]; [left | right]; reflexivity. }
  change (productivity_percentage (enrich r)) with
    (round2 (actual_hours r / inject_Z (expected_hours (enrich r)) * 100)).
  unfold enrich.
  cbn [expected_hours standard_hours leave_hours_deduction record
       employment_type].
  unfold HOURS_PER_LEAVE_DAY.
  set (sh := standard_hours_of (employment_type r)) in *.
  set (ld := leave_days r) in *.
  rewrite (int64_id (ld * 8))
    by (unfold in_int64, int64_min, int64_max; lia).
  rewrite (int64_id (sh - ld * 8))
    by (unfold in_int64, int64_min, int64_max; lia).
  assert (He : Z.max 1 (sh - ld * 8) = sh - ld * 8) by lia.
  rewrite He.
  split; [reflexivity|]. split; [lia|].
  split; [|split; [|exact Hcase]].
  - change 33.33%Q with (round2 (100 # 3)).
    apply round2_mono, ratio_lower; [lia|].
    apply Qle_trans with ((inject_Z sh * 0.6 - inject_Z (ld * 8)) * 100)%Q.
    + unfold Qle, Qmult, Qminus, Qplus, Qopp, inject_Z. cbn [Qnum Qden]. lia.
    + apply Qmult_le_compat_r; [exact Hlo | discriminate].
  - change 121.67%Q with (round2 (365 # 3)).
    apply round2_mono, ratio_upper; [lia|].
    apply Qle_trans
      with ((inject_Z sh * 1.05 - inject_Z (ld * 8) * 0.8) * 100)%Q.
    + apply Qmult_le_compat_r; [exact Hhi | discriminate].
    + unfold Qle, Qmult, Qminus, Qplus, Qopp, inject_Z. cbn [Qnum Qden]. lia.
Qed.

Section sample.
Context `{RandomSource G}.

Lemma mapM_Rand_Forall2 {A B} (f : A -> Rand G B) (l : list A) (g : G) :
  Forall2 (fun x y => exists g0, y = (f x g0).1) l (mapM f l g).1.
Proof.
  revert g. induction l as [|x l IH]; intros g; [constructor|].
  cbn [mapM]. unfold mbind, Rand_bind at 1.
  destruct (f x g) as [y g1] eqn:E1.
  unfold Rand_bind at 1.
  specialize (IH g1). destruct (mapM f l g1) as [k g2] eqn:E2.
  cbn [mret Rand_ret fst]. constructor; [|exact IH].
  exists g. now rewrite E1.
Qed.

Lemma choice_elem_of (seq : list string) (g : G) :
  seq <> [] -> (choice seq g).1 ∈ seq.
Proof.
  intros Hne. unfold choice.
  pose proof (randbelow_lt (length seq) g) as Hlt.
  destruct (randbelow (length seq) g) as [k g']. cbn [fst] in *.
  apply list_elem_of_In, nth_In, Hlt.
  destruct seq; [congruence | cbn; lia].
Qed.

Lemma randint_range (a b : Z) (g : G) :
  a <= b -> a <= (randint a b g).1 <= b.
Proof.
  intros Hab. unfold randint.
  pose proof (randbelow_lt (Z.to_nat (b - a + 1)) g) as Hlt.
  destruct (randbelow (Z.to_nat (b - a + 1)) g) as [k g']. cbn [fst] in *.
  lia.
Qed.

Lemma uniform_range (a b : Q) (g : G) :
  (a <= b)%Q -> (a <= (uniform a b g).1)%Q /\ ((uniform a b g).1 <= b)%Q.
Proof.
  intros Hab. unfold uniform.
  pose proof (random_unit g) as [H0 H1].
  destruct (random g) as [r g']. cbn [fst] in *.
  assert (Hd : (0 <= b - a)%Q) by (unfold Qminus; now rewrite <- Qle_minus_iff).
  split.
  - rewrite <- (Qplus_0_r a) at 1. apply Qplus_le_compat; [apply Qle_refl|].
    now apply Qmult_le_0_compat.
  - apply Qle_trans with (a + (b - a) * 1)%Q;
      [|apply Qle_lteq; right; ring].
    apply Qplus_le_compat; [apply Qle_refl|].
    rewrite !(Qmult_comm (b - a)).
    apply Qmult_le_compat_r; [now apply Qlt_le_weak | exact Hd].
Qed.

Lemma sample_employee_sampled (i : nat) (g : G) :
  sampled i (sample_employee i g).1.
Proof.
  unfold sample_employee, mbind, Rand_bind.
  pose proof (choice_elem_of employment_types g ltac:(discriminate)) as Hty.
  destruct (choice employment_types g) as [ty g1]. cbn [fst] in Hty.
  pose proof (randint_range 0 5 g1 ltac:(lia)) as Hld.
  destruct (randint 0 5 g1) as [ld g2]. cbn [fst] in Hld.
  destruct (random g2) as [u g3].
  fold (standard_hours_of ty).
  assert (Hah : exists ah g4,
    (if Qlt_le_dec u 0.7
     then randint (py_int (inject_Z (standard_hours_of ty) * 0.90))
                  (py_int (inject_Z (standard_hours_of ty) * 1.05))
     else randint (py_int (inject_Z (standard_hours_of ty) * 0.60))
                  (py_int (inject_Z (standard_hours_of ty) * 0.89))) g3
    = (ah, g4)
    /\ (inject_Z (standard_hours_of ty) * 0.6 <= inject_Z ah)%Q
    /\ (inject_Z ah <= inject_Z (standard_hours_of ty) * 1.05)%Q).
  { assert (Hcase : ty = "Full-Time" \/ ty = "Part-Time").
    { unfold employment_types in Hty.
      apply elem_of_cons in Hty as [Hty|Hty]; [now left | right].
      now apply list_elem_of_singleton in Hty. }
    destruct Hcase as [E | E]; rewrite E;
      destruct (Qlt_le_dec u 0.7);
      match goal with
      | |- context [randint ?a ?b g3] =>
          let a' := eval vm_compute in a in
          let b' := eval vm_compute in b in
          change a with a'; change b with b';
          pose proof (randint_range a' b' g3 ltac:(lia)) as Hr;
          destruct (randint a' b' g3) as [ah g4]
      end;
      cbn [fst] in Hr; exists ah, g4; (split; [reflexivity|]);
      match goal with
      | |- context [standard_hours_of ?s] =>
          let v := eval vm_compute in (standard_hours_of s) in
          change (standard_hours_of s) with v
      end;
      unfold Qle, Qmult, inject_Z; cbn [Qnum Qden]; lia. }
  destruct Hah as (ah & g4 & -> & Hlo & Hhi).
  pose proof (choice_elem_of departments g4 ltac:(discriminate)) as Hdep.
  destruct (choice departments g4) as [dep g5]. cbn [fst] in Hdep.
  pose proof (uniform_range 0.8 1.0 g5 ltac:(discriminate)) as [Hw0 Hw1].
  destruct (uniform 0.8 1.0 g5) as [w g6]. cbn [fst] in Hw0, Hw1.
  cbn [mret Rand_ret fst]. unfold sampled.
  cbn [employee_id name department employment_type leave_days actual_hours].
  unfold HOURS_PER_LEAVE_DAY.
  repeat split; try assumption; try lia.
  - apply Qplus_le_compat; [exact Hlo|].
    apply Qopp_le_compat.
    rewrite <- (Qmult_1_r (inject_Z (ld * 8))) at 2.
    rewrite !(Qmult_comm (inject_Z (ld * 8))).
    apply Qmult_le_compat_r; [|unfold Qle; cbn; lia].
    unfold Qle in *. cbn [Qnum Qden] in *. lia.
  - apply Qplus_le_compat; [exact Hhi|].
    apply Qopp_le_compat.
    rewrite !(Qmult_comm (inject_Z (ld * 8))).
    apply Qmult_le_compat_r; [exact Hw0|]. unfold Qle. cbn. lia.
Qed.

Lemma sample_rows (l : list nat) (g : G) :
  Forall2 sampled l (mapM sample_employee l g).1.
Proof.
  eapply Forall2_impl; [apply mapM_Rand_Forall2|].
  intros i r [g0 ->]. apply sample_employee_sampled.
Qed.

Lemma generate_sample_data_rows (n : Z) (g : G) :
  exists data,
    (generate_sample_data n g).1 = DataFrame_of_dicts data
    /\ Forall2 sampled (seq 1 (Z.to_nat n)) data.
Proof.
  unfold generate_sample_data, mbind, Rand_bind.
  pose proof (sample_rows (seq 1 (Z.to_nat n)) g) as Hrows.
  destruct (mapM sample_employee (seq 1 (Z.to_nat n)) g) as [data g'].
  exists data. split; [reflexivity | exact Hrows].
Qed.

(** X10. For a positive [num_employees] the sample has that many rows under
    the six input columns, and the identifiers are ["EMP"] followed by the
    row number from 1 on, zero-padded to four digits; they are pairwise
    distinct. *)
Theorem sample_data_ids (n : Z) (g : G) :
  0 < n ->
  exists data,
    (generate_sample_data n g).1 = DataFrame_of data
    /\ length data = Z.to_nat n
    /\ employee_id <$> data
       = (fun i => "EMP" +:+ format_04d i) <$> seq 1 (Z.to_nat n)
    /\ NoDup (employee_id <$> data).
Proof.
  intros Hn. destruct (generate_sample_data_rows n g) as (data & Hdf & Hrows).
  assert (Hids : employee_id <$> data
                 = (fun i => "EMP" +:+ format_04d i) <$> seq 1 (Z.to_nat n)).
  { clear Hdf. induction Hrows as [|i r l data Hr _ IH]; [reflexivity|].
    cbn [fmap list_fmap]. f_equal; [apply Hr | exact IH]. }
  assert (Hlen : length data = Z.to_nat n).
  { apply Forall2_length in Hrows. now rewrite length_seq in Hrows. }
  exists data. split; [|split; [exact Hlen|split; [exact Hids|]]].
  - rewrite Hdf. destruct data; [cbn in Hlen; lia | reflexivity].
  - rewrite Hids. apply employee_ids_NoDup.
Qed.

(** X11. Every generated row has one of the two employment types, one of
    the eight departments, from 0 to 5 leave days, and hours between
    [0.6 * standard - 8 * leave] and [1.05 * standard - 6.4 * leave], hence
    at least 20. *)
Theorem sample_data_ranges (n : Z) (g : G) :
  exists data,
    (generate_sample_data n g).1 = DataFrame_of_dicts data
    /\ Forall (fun r =>
         employment_type r ∈ employment_types
         /\ department r ∈ departments
         /\ 0 <= leave_days r <= 5
         /\ (inject_Z (standard_hours_of (employment_type r)) * 0.6
             - inject_Z (leave_days r * 8) <= actual_hours r)%Q
         /\ (actual_hours r
             <= inject_Z (standard_hours_of (employment_type r)) * 1.05
                - inject_Z (leave_days r * 8) * 0.8)%Q
         /\ (20 <= actual_hours r)%Q) data.
Proof.
  destruct (generate_sample_data_rows n g) as (data & Hdf & Hrows).
  exists data. split; [exact Hdf|].
  clear Hdf. induction Hrows as [|i r l data Hr _ IH]; constructor; [|exact IH].
  destruct Hr as (_ & _ & Hdep & Hty & Hld & Hlo & Hhi).
  repeat split; try assumption; try lia.
  eapply Qle_trans; [|exact Hlo].
  assert (Hsh : 100 <= standard_hours_of (employment_type r)).
  { unfold standard_hours_of, FULLTIME_STANDARD_HOURS, PARTTIME_STANDARD_HOURS.
    destruct (String.eqb _ _); lia. }
  unfold Qle, Qmult, Qminus, Qplus, Qopp, inject_Z. cbn [Qnum Qden]. lia.
Qed.

(** X12. The calculator and the aggregator on a sample of at least one row:
    nothing is raised, the floor on the expected hours is never in effect
    (they are the standard hours less the deduction, and at least 60),
    every percentage lies between 33.33 and 121.67, and the two
    employment-type sub-summaries count every row. *)
Theorem sample_data_analysis (n : Z) (g : G) :
  0 < n ->
  exists data es s,
    (generate_sample_data n g).1 = DataFrame_of data
    /\ calculate data = Ok es
    /\ Forall (fun e =>
         expected_hours e = standard_hours e - leave_hours_deduction e
         /\ 60 <= expected_hours e
         /\ (33.33 <= productivity_percentage e)%Q
         /\ (productivity_percentage e <= 121.67)%Q) es
    /\ summarize es = Ok s
    /\ total_employees s = Z.to_nat n
    /\ (from_option Segment.count 0%nat (fulltime_stats s)
        + from_option Segment.count 0%nat (parttime_stats s))%nat
       = total_employees s.
Proof.
  intros Hn. destruct (generate_sample_data_rows n g) as (data & Hdf & Hrows).
  assert (Hlen : length data = Z.to_nat n).
  { apply Forall2_length in Hrows. now rewrite length_seq in Hrows. }
  assert (Hne : enrich <$> data <> []).
  { destruct data; [cbn in Hlen; lia | discriminate]. }
  assert (Hall : Forall (fun e =>
      (expected_hours e = standard_hours e - leave_hours_deduction e
       /\ 60 <= expected_hours e
       /\ (33.33 <= productivity_percentage e)%Q
       /\ (productivity_percentage e <= 121.67)%Q)
      /\ (employment_type (record e) = "Full-Time"
          \/ employment_type (record e) = "Part-Time")) (enrich <$> data)).
  { clear Hdf Hlen Hne.
    induction Hrows as [|i r l data Hr _ IH]; [constructor|].
    cbn [fmap list_fmap]. constructor; [|exact IH].
    destruct (sampled_enrich i r Hr) as (H1 & H2 & H3 & H4 & H5).
    repeat split; assumption. }
  apply Forall_and in Hall as [Hval Hty].
  pose proof (segment_counts_cover_eq (enrich <$> data) Hne Hty)
    as (s & Hs & Ht & Hc).
  exists data, (enrich <$> data), s.
  split; [rewrite Hdf; destruct data; [cbn in Hlen; lia | reflexivity]|].
  split; [apply calculate_enrich|]. split; [exact Hval|].
  split; [exact Hs|]. split; [|exact Hc].
  now rewrite Ht, length_fmap.
Qed.

(** X13. For [num_employees <= 0] the sample is the frame with no column
    and no row, on which the calculator raises
    [KeyError('Employment_Type')]. *)
Theorem sample_data_empty (n : Z) (g : G) :
  n <= 0 ->
  (generate_sample_data n g).1
    = mkDataFrame [] None None None None None None None None None None None
  /\ (calculate_productivity 0%nat [(generate_sample_data n g).1]).1
     = Raise (KeyError "Employment_Type").
Proof.
  intros Hn. unfold generate_sample_data.
  replace (Z.to_nat n) with 0%nat by lia.
  split; reflexivity.
Qed.

End sample.

(** * The request handlers *)

Lemma to_dict_records_mask (p : EnrichedRecord -> bool) (es : list EnrichedRecord) :
  to_dict_records (df_mask (p <$> es) (DataFrame_of_enriched es))
  = Ok (List.filter p es).
Proof.
  unfold to_dict_records, DataFrame_of_enriched, df_mask.
  cbn [getitem mbind result_bind mret result_ret fmap option_fmap option_map
       index Employee_ID Name Department Employment_Type Actual_Hours
       Leave_Days Standard_Hours Leave_Hours_Deduction Expected_Hours
       Productivity_Percentage Productivity_Status].
  rewrite !boolean_index_fmap.
  f_equal. one_fmap.
  rewrite <- (list_fmap_id (List.filter p es)) at 2.
  apply list_fmap_ext. intros _ [[] ? ? ? ? ?] _. reflexivity.
Qed.


Lemma missing_columns_spec (df : DataFrame) (c : string) :
  c ∈ missing_columns df <-> c ∈ required_columns /\ c ∉ columns df.
Proof.
  unfold missing_columns. rewrite !list_elem_of_In, filter_In.
  rewrite negb_true_iff, bool_decide_eq_false, list_elem_of_In. reflexivity.
Qed.


Lemma enrich_status_labels (rs : list EmployeeRecord) :
  Forall (fun e => productivity_status e = "Productive"
                   \/ productivity_status e = "Not Productive") (enrich <$> rs).
Proof.
  apply Forall_fmap, Forall_forall. intros r _. cbn. unfold status_of.
  destruct (Qle_bool _ _); [now left | now right].
Qed.


Section analyze.
Context {C : Type} (read_csv read_excel : C -> parsed).


(** X15. When a required column is absent from the parsed frame, the answer
    is 400 with ["Missing columns: "] and the absent required columns,
    all of them and no other, in the order of [required_columns]. *)
Theorem analyze_missing_columns (file : FileStorage C) (df : DataFrame)
    (c : string) :
  filename file <> "" ->
  read_file read_csv read_excel file = Some (Frame df) ->
  c ∈ required_columns -> c ∉ columns df ->
  exists missing,
    analyze_productivity read_csv read_excel (Some file)
    = (error ("Missing columns: " +:+ String.concat ", " missing), 400%nat)
    /\ sublist missing required_columns
    /\ forall c', c' ∈ missing <-> c' ∈ required_columns /\ c' ∉ columns df.
Proof.
  intros Hname Hread Hreq Hnot. unfold analyze_productivity.
  apply String.eqb_neq in Hname. rewrite Hname, Hread.
  exists (missing_columns df).
  assert (Hc : c ∈ missing_columns df) by now apply missing_columns_spec.
  split; [|split].
  - destruct (missing_columns df); [now apply elem_of_nil in Hc | reflexivity].
  - unfold missing_columns. clear. induction required_columns as [|x l IH].
    + constructor.
    + cbn [List.filter]. destruct (negb _); now constructor.
  - apply missing_columns_spec.
Qed.

End analyze.

Lemma sheet_rows_step (w : workbook) (sheet_name : string)
    (p : EnrichedRecord -> bool) (es : list EnrichedRecord) :
  sheet_rows
    (if bool_decide (0 < len (df_mask (p <$> es) (DataFrame_of_enriched es)))%nat
     then to_excel (df_mask (p <$> es) (DataFrame_of_enriched es)) sheet_name w
     else w)
  = sheet_rows w ++ optional_sheet sheet_name (List.filter p es).
Proof.
  destruct (has_rows_mask p _ es (has_rows_enriched es)) as [Hlen _].
  rewrite Hlen.
  destruct (List.filter p es) as [|e l] eqn:E.
  - rewrite bool_decide_false by (cbn; lia). cbn [optional_sheet].
    now rewrite app_nil_r.
  - rewrite bool_decide_true by (cbn; lia).
    unfold to_excel, sheet_rows. rewrite fmap_app. f_equal.
    cbn [fmap list_fmap fst snd optional_sheet].
    now rewrite to_dict_records_mask, E.
Qed.

(** X16. The workbook of [export_excel].  On at least one row: the sheet
    "All Employees" with every row, then "Full-Time", "Part-Time",
    "Productive" and "Not Productive", in this order, each with the rows
    that its filter selects and written only if there is one.  On no row:
    the answer is 500 with the text of [KeyError('Employment_Type')]. *)
Theorem export_excel_sheets (data : list EnrichedRecord) :
  match data with
  | [] => export_excel data = (error "'Employment_Type'", 500%nat)
  | _ :: _ =>
      exists w,
        export_excel data = (spreadsheet w, 200%nat)
        /\ sheet_rows w
           = [("All Employees", Ok data)]
             ++ optional_sheet "Full-Time" (with_type "Full-Time" data)
             ++ optional_sheet "Part-Time" (with_type "Part-Time" data)
             ++ optional_sheet "Productive" (with_status "Productive" data)
             ++ optional_sheet "Not Productive"
                  (with_status "Not Productive" data)
  end.
Proof.
  destruct data as [|e0 es0]; [reflexivity|].
  set (data := e0 :: es0). unfold export_excel, export_sheets.
  change (DataFrame_of_rows data) with (DataFrame_of_enriched data).
  assert (Het : getitem Employment_Type "Employment_Type"
                  (DataFrame_of_enriched data)
                = Ok (employment_type ∘ record <$> data)) by reflexivity.
  assert (Hps : getitem Productivity_Status "Productivity_Status"
                  (DataFrame_of_enriched data)
                = Ok (productivity_status <$> data)) by reflexivity.
  rewrite Het, Hps. cbn [mbind result_bind mret result_ret].
  rewrite !series_eq_type, !series_eq_status.
  eexists. split; [reflexivity|].
  rewrite !sheet_rows_step.
  unfold to_excel, sheet_rows. cbn [app fmap list_fmap fst snd].
  rewrite to_dict_records_enriched.
  rewrite <- !app_assoc. reflexivity.
Qed.

(** ** Instances *)

(** The two end-to-end examples of the specification. *)
Example calculate_full_time_180 :
  exists e, calculate [emp "Full-Time" 180 0] = Ok [e]
    /\ expected_hours e = 200
    /\ (productivity_percentage e == 90.00)%Q
    /\ productivity_status e = "Productive".
Proof. eexists. repeat split; reflexivity. Qed.

Example calculate_part_time_50 :
  exists e, calculate [emp "Part-Time" 50 2] = Ok [e]
    /\ expected_hours e = 84
    /\ (productivity_percentage e == 59.52)%Q
    /\ productivity_status e = "Not Productive".
Proof. eexists. repeat split; reflexivity. Qed.

(** C1 as stated fails: a record of employment type "Contractor" raises
    nothing; it is computed with the part-time standard hours. *)
Lemma unknown_type_not_rejected :
  employment_type (emp "Contractor" 95 0) <> "Full-Time"
  /\ employment_type (emp "Contractor" 95 0) <> "Part-Time"
  /\ exists e, calculate [emp "Contractor" 95 0] = Ok [e]
       /\ standard_hours e = 100
       /\ expected_hours e = 100
       /\ (productivity_percentage e == 95)%Q
       /\ productivity_status e = "Productive".
Proof.
  split; [discriminate|]. split; [discriminate|].
  eexists. repeat split; reflexivity.
Qed.

Lemma standard_hours_default_witness :
  employment_type (emp "Contractor" 95 0) <> "Full-Time"
  /\ exists es, calculate [emp "Contractor" 95 0] = Ok es
       /\ Forall2 (fun r e =>
            (employment_type r = "Full-Time"
               -> standard_hours e = FULLTIME_STANDARD_HOURS)
            /\ (employment_type r <> "Full-Time"
               -> standard_hours e = PARTTIME_STANDARD_HOURS))
          [emp "Contractor" 95 0] es.
Proof.
  split; [discriminate | apply (standard_hours_default [emp "Contractor" 95 0])].
Defined.



Lemma status_threshold_witness :
  exists es,
    calculate [emp "Full-Time" 180 0; emp "Full-Time" 179.98 0] = Ok es
    /\ (productivity_status <$> es) = ["Productive"; "Not Productive"]
    /\ Forall (fun e =>
         (productivity_status e = "Productive"
            <-> (90 <= productivity_percentage e)%Q)
         /\ (productivity_status e = "Not Productive"
            <-> (productivity_percentage e < 90)%Q)
         /\ ((productivity_percentage e == 90.00)%Q
            -> productivity_status e = "Productive")
         /\ ((productivity_percentage e == 89.99)%Q
            -> productivity_status e = "Not Productive"))
       es.
Proof.
  destruct (status_threshold [emp "Full-Time" 180 0; emp "Full-Time" 179.98 0])
    as (es & Hes & HF).
  exists es. split; [exact Hes|]. split; [|exact HF].
  rewrite calculate_enrich in Hes. injection Hes as <-. reflexivity.
Defined.


Lemma input_unchanged_witness :
  [DataFrame_of [emp "Full-Time" 180 0]] !! 0%nat
    = Some (DataFrame_of [emp "Full-Time" 180 0])
  /\ (calculate_productivity 0%nat [DataFrame_of [emp "Full-Time" 180 0]]).2
       !! 0%nat
     = Some (DataFrame_of [emp "Full-Time" 180 0]).
Proof.
  split; [reflexivity|].
  apply (proj1 (input_unchanged [DataFrame_of [emp "Full-Time" 180 0]] 0%nat)).
  reflexivity.
Defined.

Lemma counts_partition_witness :
  Forall (fun e => productivity_status e = "Productive"
                   \/ productivity_status e = "Not Productive")
    (enrich <$> [emp "Full-Time" 180 0; emp "Part-Time" 50 2])
  /\ match summarize (enrich <$> [emp "Full-Time" 180 0; emp "Part-Time" 50 2]) with
     | Ok s =>
         (productive_count s + not_productive_count s)%nat = total_employees s
     | Raise _ =>
         enrich <$> [emp "Full-Time" 180 0; emp "Part-Time" 50 2] = []
     end.
Proof.
  assert (H : Forall (fun e => productivity_status e = "Productive"
                               \/ productivity_status e = "Not Productive")
                (enrich <$> [emp "Full-Time" 180 0; emp "Part-Time" 50 2])).
  { cbn [fmap list_fmap].
    constructor; [left; reflexivity|].
    constructor; [right; reflexivity|]. constructor. }
  split; [exact H | apply (counts_partition _ H)].
Defined.


(** ** Instances of the further properties *)

(** The identifiers of the sample, and the test on the file name. *)
Example format_04d_examples :
  format_04d 7 = "0007" /\ format_04d 123 = "0123"
  /\ format_04d 1000 = "1000" /\ format_04d (1234 * 10 + 5) = "12345".
Proof. repeat split. Qed.

Example endswith_examples :
  endswith "roster.csv" ".csv" = true
  /\ endswith "roster.CSV" ".csv" = false
  /\ endswith "csv" ".csv" = false
  /\ endswith "roster.xlsx" ".xls" = false
  /\ endswith "roster.xlsx" ".xlsx" = true.
Proof. repeat split. Qed.

(** The first row of a sample, drawn from the counting generator. *)
Example sample_employee_example :
  let r := (sample_employee (G:=nat) 1 0%nat).1 in
  employee_id r = "EMP0001" /\ name r = "Employee 1"
  /\ department r = "Finance" /\ employment_type r = "Full-Time"
  /\ leave_days r = 1 /\ (actual_hours r == 175.8)%Q.
Proof. vm_compute. repeat split. Qed.

Lemma calculate_productivity_columns_witness :
  [no_leave_days] !! 0%nat = Some no_leave_days
  /\ (calculate_productivity 0%nat [no_leave_days]).1
     = Raise (KeyError "Leave_Days").
Proof.
  split; [reflexivity|].
  exact (calculate_productivity_columns [no_leave_days] 0%nat no_leave_days
           eq_refl).
Defined.

Lemma more_hours_never_lower_witness :
  exists es es',
    calculate [emp "Full-Time" 170 0] = Ok es
    /\ calculate [emp "Full-Time" 180 0] = Ok es'
    /\ Forall2 (fun e e' =>
         expected_hours e' = expected_hours e
         /\ (productivity_percentage e <= productivity_percentage e')%Q
         /\ (productivity_status e = "Productive"
             -> productivity_status e' = "Productive")) es es'.
Proof.
  apply (more_hours_never_lower [emp "Full-Time" 170 0] [emp "Full-Time" 180 0]).
  constructor; [|constructor].
  split; [reflexivity|]. split; [reflexivity | discriminate].
Defined.

Lemma more_leave_never_lower_witness :
  exists es es',
    calculate [emp "Full-Time" 150 0] = Ok es
    /\ calculate [emp "Full-Time" 150 3] = Ok es'
    /\ Forall2 (fun e e' =>
         expected_hours e' <= expected_hours e
         /\ (productivity_percentage e <= productivity_percentage e')%Q
         /\ (productivity_status e = "Productive"
             -> productivity_status e' = "Productive")) es es'.
Proof.
  apply (more_leave_never_lower [emp "Full-Time" 150 0] [emp "Full-Time" 150 3]).
  constructor; [|constructor].
  split; [reflexivity|]. split; [reflexivity|].
  split; [discriminate|]. split; [cbn; lia|].
  split; unfold no_overflow; cbn; lia.
Defined.

Lemma segment_consistent_witness :
  match summarize (enrich <$> [emp "Full-Time" 180 0; emp "Part-Time" 50 2]) with
  | Ok s =>
      exists seg, fulltime_stats s = Some seg
        /\ (0 < Segment.count seg)%nat
        /\ (Segment.productive seg + Segment.not_productive seg)%nat
           = Segment.count seg
  | Raise _ => False
  end.
Proof.
  pose proof (segment_consistent
    (enrich <$> [emp "Full-Time" 180 0; emp "Part-Time" 50 2])
    (enrich_status_labels [emp "Full-Time" 180 0; emp "Part-Time" 50 2])) as H.
  destruct (summarize (enrich <$> [emp "Full-Time" 180 0; emp "Part-Time" 50 2]))
    as [s|x] eqn:E; [|discriminate H].
  destruct (fulltime_stats s) as [seg|] eqn:Eft.
  - exists seg. split; [reflexivity|]. apply H. now left.
  - exfalso. vm_compute in E. injection E as <-. discriminate Eft.
Defined.


Lemma sample_data_ids_witness :
  exists data,
    (generate_sample_data (G:=nat) 3 0%nat).1 = DataFrame_of data
    /\ length data = 3%nat
    /\ employee_id <$> data
       = (fun i => "EMP" +:+ format_04d i) <$> seq 1 3
    /\ NoDup (employee_id <$> data).
Proof. apply (sample_data_ids (G:=nat) 3 0%nat). lia. Defined.

Lemma sample_data_analysis_witness :
  exists data es s,
    (generate_sample_data (G:=nat) 3 0%nat).1 = DataFrame_of data
    /\ calculate data = Ok es
    /\ Forall (fun e =>
         expected_hours e = standard_hours e - leave_hours_deduction e
         /\ 60 <= expected_hours e
         /\ (33.33 <= productivity_percentage e)%Q
         /\ (productivity_percentage e <= 121.67)%Q) es
    /\ summarize es = Ok s
    /\ total_employees s = 3%nat
    /\ (from_option Segment.count 0%nat (fulltime_stats s)
        + from_option Segment.count 0%nat (parttime_stats s))%nat
       = total_employees s.
Proof. apply (sample_data_analysis (G:=nat) 3 0%nat). lia. Defined.

Lemma sample_data_empty_witness :
  (generate_sample_data (G:=nat) 0 0%nat).1
    = mkDataFrame [] None None None None None None None None None None None
  /\ (calculate_productivity 0%nat [(generate_sample_data (G:=nat) 0 0%nat).1]).1
     = Raise (KeyError "Employment_Type").
Proof. apply (sample_data_empty (G:=nat) 0 0%nat). lia. Defined.


Lemma analyze_missing_columns_witness :
  exists missing,
    analyze_productivity Frame Frame (Some (upload "roster.xlsx" no_name))
    = (error ("Missing columns: " +:+ String.concat ", " missing), 400%nat)
    /\ sublist missing required_columns
    /\ forall c', c' ∈ missing <-> c' ∈ required_columns /\ c' ∉ columns no_name.
Proof.
  apply (analyze_missing_columns Frame Frame (upload "roster.xlsx" no_name)
           no_name "Name").
  - discriminate.
  - reflexivity.
  - apply list_elem_of_further, list_elem_of_here.
  - apply (bool_decide_unpack _). reflexivity.
Defined.
